(** * qfetch: a shallow embedding of [qfetch.py] and its specification

    The program prints a panel of host facts next to a block of ASCII art.
    This file embeds the Python source function by function and proves the
    properties its specification states.

    Conventions of the embedding:
    - a Python [str] is a [string], read as the UTF-8 bytes of the text; the
      art catalog is pure ASCII, so [len] of an art line is its byte length;
    - a Python [int] is a [Z];
    - a value that may be [None] is an [option];
    - a call that may raise returns a [result];
    - functions that call the operating system, or print, run in the monad
      [M] over the interpreter state [State], reading a [World]. *)

From Stdlib Require Import ZArith List Bool Lia Ascii String DecimalString.
Import ListNotations.
Open Scope string_scope.

(** ** Python string primitives *)

Module Py.

Definition nl : string := String "010" "".
Definition dq : string := String "034" "".
Definition esc : string := String "027" "".

(** [str.isspace] on one ASCII character: TAB, LF, VT, FF, CR,
    FS, GS, RS, US and the space. *)
Definition is_space (c : ascii) : bool :=
  let n := nat_of_ascii c in
  ((9 <=? n) && (n <=? 13) || (28 <=? n) && (n <=? 32))%nat.

Definition is_digit (c : ascii) : bool :=
  let n := nat_of_ascii c in ((48 <=? n) && (n <=? 57))%nat.

Definition digit_val (c : ascii) : Z := (Z.of_nat (nat_of_ascii c) - 48)%Z.

(** [len(s)] *)
Definition len (s : string) : Z := Z.of_nat (String.length s).

(** [s * n]: the empty string when [n <= 0]. *)
Fixpoint repeat_str (s : string) (n : nat) : string :=
  match n with
  | O => ""
  | S n' => s ++ repeat_str s n'
  end.

Definition mul_str (s : string) (n : Z) : string := repeat_str s (Z.to_nat n).

(** [str(n)] for an [int]. *)
Definition str_of_int (n : Z) : string := NilZero.string_of_int (Z.to_int n).

(** Truthiness of a [str]-or-[None] value. *)
Definition truthy (o : option string) : bool :=
  match o with
  | None => false
  | Some "" => false
  | Some _ => true
  end.

(** [x or d] for a [str]-or-[None] value [x]. *)
Definition or_else (o : option string) (d : string) : string :=
  match o with
  | Some s => if truthy o then s else d
  | None => d
  end.

(** What an f-string field shows for a [str]-or-[None] value. *)
Definition fmt (o : option string) : string :=
  match o with
  | Some s => s
  | None => "None"
  end.

(** [x == s] for a [str]-or-[None] value [x]. *)
Definition eq_str (o : option string) (s : string) : bool :=
  match o with
  | Some t => String.eqb t s
  | None => false
  end.

(** [sub in s] *)
Fixpoint contains (sub s : string) : bool :=
  if prefix sub s then true
  else match s with
       | "" => false
       | String _ s' => contains sub s'
       end.

(** [s.lower()] on ASCII letters. *)
Definition lower_char (c : ascii) : ascii :=
  let n := nat_of_ascii c in
  if ((65 <=? n) && (n <=? 90))%nat then ascii_of_nat (n + 32) else c.

Fixpoint lower (s : string) : string :=
  match s with
  | "" => ""
  | String c s' => String (lower_char c) (lower s')
  end.

Fixpoint lstrip (s : string) : string :=
  match s with
  | "" => ""
  | String c s' => if is_space c then lstrip s' else s
  end.

Fixpoint rev_str (s acc : string) : string :=
  match s with
  | "" => acc
  | String c s' => rev_str s' (String c acc)
  end.

Definition rstrip (s : string) : string := rev_str (lstrip (rev_str s "")) "".

(** [s.strip()] *)
Definition strip (s : string) : string := rstrip (lstrip s).

(** [s.split()]: the maximal runs of characters that are not whitespace.
    [cur] holds the run being read, reversed. *)
Fixpoint split_go (s cur : string) : list string :=
  match s with
  | "" => match cur with "" => [] | _ => [rev_str cur ""] end
  | String c s' =>
      if is_space c
      then match cur with
           | "" => split_go s' ""
           | _ => rev_str cur "" :: split_go s' ""
           end
      else split_go s' (String c cur)
  end.

Definition split (s : string) : list string := split_go s "".

(** The number of bytes of the line boundary [s] starts with, 0 when it
    starts with none.  The boundaries of [str.splitlines] are LF, CR, CR LF,
    VT, FF, FS, GS, RS, U+0085, U+2028 and U+2029; the last three are
    written here in UTF-8. *)
Definition boundary (s : string) : nat :=
  match s with
  | String "013" (String "010" _) => 2
  | String "194" (String "133" _) => 2
  | String "226" (String "128" (String c _)) =>
      if (nat_of_ascii c =? 168)%nat || (nat_of_ascii c =? 169)%nat then 3 else 0
  | String c _ =>
      let n := nat_of_ascii c in
      if ((10 <=? n) && (n <=? 13) || (28 <=? n) && (n <=? 30))%nat then 1 else 0
  | "" => 0
  end.

(** [s.splitlines()]: [skip] counts the bytes of a boundary still to pass,
    [cur] holds the line being read, reversed.  A line is produced at every
    boundary, and at the end when characters remain. *)
Fixpoint splitlines_go (s cur : string) (skip : nat) : list string :=
  match s with
  | "" => match cur with "" => [] | _ => [rev_str cur ""] end
  | String c s' =>
      match skip with
      | S k => splitlines_go s' cur k
      | O =>
          match boundary s with
          | O => splitlines_go s' (String c cur) 0
          | S k => rev_str cur "" :: splitlines_go s' "" k
          end
      end
  end.

Definition splitlines (s : string) : list string := splitlines_go s "" 0.

(** [seq[i]] for [i >= 0]; [None] stands for [IndexError]. *)
Definition index {A} (l : list A) (i : nat) : option A := nth_error l i.

End Py.

(** ** Exceptions and results *)

(** The exceptions the program can end with.  [Exception] is the one the
    source raises itself, with its message; the others come from the
    interpreter and the library calls. *)
Inductive exn : Type :=
| Exception (msg : string)
| UnboundLocalError (name : string)
| AttributeError (msg : string)
| IndexError
| ValueError
| OSError (msg : string)
| CalledProcessError (cmd : string).

Inductive result (A : Type) : Type :=
| Ok (a : A)
| Raise (e : exn).

Arguments Ok {A} a.
Arguments Raise {A} e.

Definition is_ok {A} (r : result A) : bool :=
  match r with Ok _ => true | Raise _ => false end.

Definition of_option {A} (e : exn) (o : option A) : result A :=
  match o with Some a => Ok a | None => Raise e end.

(** ** [int(s)] *)

Module PyInt.

(** Decimal digits with single underscores between them; [prev] tells
    whether the character before was a digit. *)
Fixpoint digits (s : string) (acc : Z) (prev : bool) : option Z :=
  match s with
  | "" => if prev then Some acc else None
  | String c s' =>
      if Py.is_digit c then digits s' (10 * acc + Py.digit_val c)%Z true
      else if (Ascii.eqb c "_" && prev)%bool then digits s' acc false
      else None
  end.

Definition signed (s : string) : option Z :=
  match s with
  | String "+" s' => digits s' 0%Z false
  | String "-" s' => option_map Z.opp (digits s' 0%Z false)
  | _ => digits s 0%Z false
  end.

(** [int(s)] for a [str]: surrounding whitespace is dropped, a sign is
    allowed; anything else raises [ValueError]. *)
Definition of_str (s : string) : result Z :=
  of_option ValueError (signed (Py.strip s)).

End PyInt.

(** ** Regular expressions

    The fragment of [re] the program uses: literal text, greedy repetition of
    a character class, concatenation, the greedy optional [r?] and capturing
    groups.  Matching is by backtracking, with the continuation [k] standing
    for the rest of the pattern, as in [re]: a greedy operator offers its
    longest match first and gives characters back when the rest fails. *)

Module Re.

Inductive regex : Type :=
| Lit (s : string)
| Rep (p : ascii -> bool) (lo : nat) (hi : option nat)
| Cat (r1 r2 : regex)
| Opt (r : regex)
| Grp (n : nat) (r : regex).

Declare Scope re_scope.
Delimit Scope re_scope with re.
Bind Scope re_scope with regex.
Infix "+++" := Cat (at level 61, right associativity) : re_scope.

(** The groups that took part in the match, latest first. *)
Definition groups := list (nat * string).

Definition K := string -> groups -> option groups.

Fixpoint lit (t s : string) : option string :=
  match t, s with
  | "", _ => Some s
  | String a t', String b s' => if Ascii.eqb a b then lit t' s' else None
  | String _ _, "" => None
  end.

Definition below (n : nat) (hi : option nat) : bool :=
  match hi with
  | None => true
  | Some h => (n <? h)%nat
  end.

(** Greedy repetition: [n] characters of the class have been read. *)
Fixpoint rep (p : ascii -> bool) (lo : nat) (hi : option nat)
    (n : nat) (s : string) (gs : groups) (k : K) : option groups :=
  let stop := if (lo <=? n)%nat then k s gs else None in
  match s with
  | "" => stop
  | String c s' =>
      if (p c && below n hi)%bool
      then match rep p lo hi (S n) s' gs k with
           | Some r => Some r
           | None => stop
           end
      else stop
  end.

(** The first [length s - length s'] characters of [s]: the text read
    between [s] and its suffix [s']. *)
Definition consumed (s s' : string) : string :=
  substring 0 (String.length s - String.length s') s.

Fixpoint run (r : regex) (s : string) (gs : groups) (k : K) : option groups :=
  match r with
  | Lit t => match lit t s with Some s' => k s' gs | None => None end
  | Rep p lo hi => rep p lo hi 0 s gs k
  | Cat r1 r2 => run r1 s gs (fun s' gs' => run r2 s' gs' k)
  | Opt r1 => match run r1 s gs k with
              | Some g => Some g
              | None => k s gs
              end
  | Grp n r1 => run r1 s gs (fun s' gs' => k s' ((n, consumed s s') :: gs'))
  end.

(** [re.search(r, s)]: the match at the leftmost position that has one. *)
Fixpoint search (r : regex) (s : string) : option groups :=
  match run r s [] (fun _ gs => Some gs) with
  | Some gs => Some gs
  | None => match s with
            | "" => None
            | String _ s' => search r s'
            end
  end.

(** [match.group(n)]: [None] when the group took no part. *)
Fixpoint group (gs : groups) (n : nat) : option string :=
  match gs with
  | [] => None
  | (m, t) :: gs' => if (m =? n)%nat then Some t else group gs' n
  end.

(** The classes [\d] and [\s], on ASCII: a digit or a white space outside
    ASCII is several bytes here and belongs to neither. *)
Definition digit : ascii -> bool := Py.is_digit.
Definition space : ascii -> bool := Py.is_space.

End Re.

(** ** The art catalog

    The five raw strings of the list [art], in order: the bunny, Tux, the
    phoenix, the robot and the cat.  Every line ends with a line feed; the
    cat's block starts with an empty line. *)

Definition art_0 : string :=
  "    |\ |\    " ++ Py.nl ++
  "    \ \| |" ++ Py.nl ++
  "     \ | |" ++ Py.nl ++
  "   .--''/" ++ Py.nl ++
  "  /o     \" ++ Py.nl ++
  "  \      /" ++ Py.nl ++
  "   {>o<}='" ++ Py.nl.

Definition art_1 : string :=
  "    .---." ++ Py.nl ++
  "   /     \" ++ Py.nl ++
  "   \.@-@./" ++ Py.nl ++
  "   /`\_/`\" ++ Py.nl ++
  "  //  _  \\" ++ Py.nl ++
  " | \     )|_" ++ Py.nl ++
  "/`\_`>  <_/ \" ++ Py.nl ++
  "\__/'---'\__/" ++ Py.nl.

Definition art_2 : string :=
  " .\\            //." ++ Py.nl ++
  ". \ \          / /." ++ Py.nl ++
  ".\  ,\     /` /,.- " ++ Py.nl ++
  " -.   \  /'/ /  ." ++ Py.nl ++
  " ` -   `-'  \  -" ++ Py.nl ++
  "   '.       /.\`" ++ Py.nl ++
  "      -    .-" ++ Py.nl ++
  "      :`//.'" ++ Py.nl ++
  "      .`.'" ++ Py.nl ++
  "      .'" ++ Py.nl.

Definition art_3 : string :=
  "       __" ++ Py.nl ++
  "   _  |@@|" ++ Py.nl ++
  "  / \ \--/ __" ++ Py.nl ++
  "  ) O|----|  |   __" ++ Py.nl ++
  " / / \ }{ /\ )_ / _\" ++ Py.nl ++
  " )/  /\__/\ \__O (__ " ++ Py.nl ++
  "|/  (--/\--)    \__/" ++ Py.nl ++
  " /   _)(  )(_" ++ Py.nl ++
  "   `---''---`" ++ Py.nl.

Definition art_4 : string :=
  Py.nl ++
  "   |\---/|" ++ Py.nl ++
  "   | ,_, |" ++ Py.nl ++
  "    \_`_/-..----." ++ Py.nl ++
  " ___/ `   ' ," ++ Py.dq ++ Py.dq ++ "+ \" ++ Py.nl ++
  "(__...'   __\    |`.___.';" ++ Py.nl ++
  "  (_,...'(_,.`__)/'.....+" ++ Py.nl.

Definition art : list string := [art_0; art_1; art_2; art_3; art_4].

(** ** The command line

    [argparse] leaves each of the three options at [None] when it is not
    given, and refuses a value outside the option's [choices] before the
    program runs. *)

Record Args : Type := {
  args_art : option string;
  args_sys_info : option string;
  args_theme : option string
}.

Inductive ArtChoice : Type :=
| Playboy_Bunny | Tux | Phoenix | Robot | Cat | Random_Art.

Inductive InfoStyle : Type :=
| Sys_info_default | Sys_info_no_nerd_font.

Inductive ThemeName : Type :=
| Default | Red | Green | Blue | Yellow | Cyan | Magenta.

Definition art_name (c : ArtChoice) : string :=
  match c with
  | Playboy_Bunny => "Playboy-Bunny"
  | Tux => "Tux"
  | Phoenix => "Phoenix"
  | Robot => "Robot"
  | Cat => "Cat"
  | Random_Art => "Random-Art"
  end.

Definition style_name (c : InfoStyle) : string :=
  match c with
  | Sys_info_default => "sys_info_default"
  | Sys_info_no_nerd_font => "sys_info_no_nerd_font"
  end.

Definition theme_name (c : ThemeName) : string :=
  match c with
  | Default => "default"
  | Red => "red"
  | Green => "green"
  | Blue => "blue"
  | Yellow => "yellow"
  | Cyan => "cyan"
  | Magenta => "magenta"
  end.

(** The arguments [parse_args] returns for a command line. *)
Definition parse_args (a : option ArtChoice) (s : option InfoStyle)
    (t : option ThemeName) : Args :=
  {| args_art := option_map art_name a;
     args_sys_info := option_map style_name s;
     args_theme := option_map theme_name t |}.

(** ** The host and the interpreter state *)

(** What the program can observe of its host.  The values of [platform] are
    fixed for the process.  [draws k] is the index the [k]-th call of the
    random generator picks before it is reduced to the length of the
    sequence.  A command's output, and a directory's listing, may change from
    one call to the next: [check_output t cmd] is what the command gives when
    it is the [t]-th call the process makes to the host. *)
Record World : Type := {
  platform_system : string;
  platform_release : string;
  platform_machine : string;
  platform_platform : string;
  draws : nat -> nat;
  check_output : nat -> string -> result string;
  listdir : nat -> string -> result (list string)
}.

(** The mutable state of a run: the module global [rand_art], the number of
    random draws made, the number of calls made to the host, and the lines
    printed so far. *)
Record State : Type := {
  rand_art : string;
  rng : nat;
  clock : nat;
  stdout : list string
}.

Definition M (A : Type) : Type := State -> result A * State.

Definition ret {A} (a : A) : M A := fun st => (Ok a, st).

Definition raise {A} (e : exn) : M A := fun st => (Raise e, st).

Definition bind {A B} (c : M A) (k : A -> M B) : M B :=
  fun st =>
    match c st with
    | (Ok a, st') => k a st'
    | (Raise e, st') => (Raise e, st')
    end.

Notation "x <- c ;; k" := (bind c (fun x => k))
  (at level 100, c at next level, right associativity).
Notation "c ;;; k" := (bind c (fun _ => k))
  (at level 100, right associativity).

Definition lift {A} (r : result A) : M A := fun st => (r, st).

Definition gets {A} (f : State -> A) : M A := fun st => (Ok (f st), st).

Definition tick : M nat :=
  fun st =>
    (Ok (clock st),
     {| rand_art := rand_art st; rng := rng st;
        clock := S (clock st); stdout := stdout st |}).

(** [print(line)] *)
Definition print (line : string) : M unit :=
  fun st =>
    (Ok tt,
     {| rand_art := rand_art st; rng := rng st;
        clock := clock st; stdout := stdout st ++ [line] |}).

Definition in_list (x : string) (l : list string) : bool :=
  existsb (String.eqb x) l.

(** [range(n)] *)
Definition range (n : nat) : list Z := map Z.of_nat (seq 0 n).

(** A dict with [str] keys, as the list of its items. *)
Definition dict := list (string * string).

(** [d.get(key)] *)
Fixpoint dict_get (d : dict) (key : string) : option string :=
  match d with
  | [] => None
  | (k, v) :: d' => if String.eqb k key then Some v else dict_get d' key
  end.

Fixpoint bytes (l : list nat) : string :=
  match l with
  | [] => ""
  | n :: l' => String (ascii_of_nat n) (bytes l')
  end.

(** ** The program *)

Section Program.

Variable w : World.
Variable args : Args.

(** A call to the host takes the next tick of the clock. *)
Definition subprocess_check_output (cmd : string) : M string :=
  t <- tick ;; lift (check_output w t cmd).

Definition os_listdir (path : string) : M (list string) :=
  t <- tick ;; lift (listdir w t path).

(** [random.choice(seq)]: one draw, reduced to an index of [seq]. *)
Definition random_choice (l : list string) : M string :=
  fun st =>
    match l with
    | [] => (Raise IndexError, st)
    | _ =>
        (Ok (nth (draws w (rng st) mod List.length l) l ""),
         {| rand_art := rand_art st; rng := S (rng st);
            clock := clock st; stdout := stdout st |})
    end.

(** The module-level statement [rand_art = random.choice(art)]. *)
Definition load : M unit :=
  a <- random_choice art ;;
  fun st =>
    (Ok tt,
     {| rand_art := a; rng := rng st; clock := clock st; stdout := stdout st |}).

Definition os_check_message : string :=
  "[!] Couldn't detect operating system, make a Github Issue if you're on MacOS or Linux".

Definition not_supported_message : string :=
  "[!] This operating system isn't supported by qfetch.".

Definition os_check : M string :=
  let operating_sys := platform_system w in
  if operating_sys =? "Darwin" then ret "macOS"
  else if operating_sys =? "Windows" then ret "Windows"
  else if operating_sys =? "Linux" then ret "Linux"
  else raise (Exception os_check_message).

Definition colors : dict :=
  [("default", "95"); ("red", "91"); ("green", "92"); ("yellow", "93");
   ("blue", "94"); ("magenta", "95"); ("cyan", "96")].

Definition theme_color_code : option string :=
  dict_get colors (Py.or_else (args_theme args) "default").

(** [art_dict.get(args.art)], with the dict built from [art] and the global
    [rand_art]; the five catalog entries are read by their index. *)
Definition art_dict (rand : string) : dict :=
  [("Playboy-Bunny", nth 0 art ""); ("Tux", nth 1 art "");
   ("Phoenix", nth 2 art ""); ("Robot", nth 3 art "");
   ("Cat", nth 4 art ""); ("Random-Art", rand)].

Definition ascii_art : M (option string) :=
  let final_art := Some (nth 2 art "") in
  match args_art args with
  | Some choice =>
      if Py.truthy (Some choice)
      then rand <- gets rand_art ;; ret (dict_get (art_dict rand) choice)
      else ret final_art
  | None => ret final_art
  end.

(** [ascii_art().splitlines()]: an [AttributeError] when the art is [None]. *)
Definition art_splitlines : M (list string) :=
  a <- ascii_art ;;
  match a with
  | Some text => ret (Py.splitlines text)
  | None => raise (AttributeError "'NoneType' object has no attribute 'splitlines'")
  end.

(** The loop of [longest_line]. *)
Definition longest_loop (art_lines : list string) (l_line : Z) : Z :=
  fold_left
    (fun l_line line => if (Py.len line >? l_line)%Z then Py.len line else l_line)
    art_lines l_line.

Definition longest_line : M Z :=
  art_lines <- art_splitlines ;;
  first <- lift (of_option IndexError (Py.index art_lines 0)) ;;
  let l_line := Py.len first in
  ret (longest_loop art_lines l_line).

Definition package_count : M string :=
  os <- os_check ;;
  if os =? "macOS" then
    entries <- os_listdir "/opt/homebrew/cellar" ;;
    let brew_count := Z.of_nat (List.length entries) in
    ret (Py.str_of_int brew_count ++ " (brew)")
  else
    os <- os_check ;;
    if os =? "Linux" then
      out <- subprocess_check_output "dpkg --get-selections | wc -l" ;;
      let apt_count := Py.strip out in
      ret (apt_count ++ " (apt)")
    else raise (UnboundLocalError "final_count").

(** [shell_ver] returns [None] when it reaches the end of its body. *)
Definition shell_ver : M (option string) :=
  os <- os_check ;;
  if in_list os ["macOS"; "Linux"] then
    out <- subprocess_check_output "echo $SHELL" ;;
    let shell := Py.strip out in
    let is_wsl := Py.contains "microsoft" (Py.lower (platform_release w)) in
    if Py.contains "zsh" shell then
      out <- subprocess_check_output "zsh --version" ;;
      let zsh_ver := Py.strip out in
      tok <- lift (of_option IndexError (Py.index (Py.split zsh_ver) 1)) ;;
      ret (Some tok)
    else if Py.contains "bash" shell then
      if is_wsl then ret (Some "bash (WSL)")
      else
        out <- subprocess_check_output "bash --version" ;;
        let bash_ver := Py.strip out in
        tok <- lift (of_option IndexError (Py.index (Py.split bash_ver) 3)) ;;
        ret (Some ("bash " ++ tok))
    else ret None
  else raise (Exception not_supported_message).

Definition find_term : M string :=
  os <- os_check ;;
  if in_list os ["macOS"; "Linux"] then
    out <- subprocess_check_output "echo $TERM" ;;
    let term := Py.strip out in
    ret term
  else raise (Exception not_supported_message).

Import Re.
Local Open Scope re_scope.

Definition pages_active_re : regex :=
  Lit "Pages active:" +++ Rep space 1 None +++ Grp 1 (Rep digit 1 None).

Definition pages_wired_re : regex :=
  Lit "Pages wired down:" +++ Rep space 1 None +++ Grp 1 (Rep digit 1 None).

Definition pages_speculative_re : regex :=
  Lit "Pages speculative:" +++ Rep space 1 None +++ Grp 1 (Rep digit 1 None).

(** [int(re.search(r, text).group(1))]: an [AttributeError] when there is
    no match. *)
Definition search_int (r : regex) (text : string) : result Z :=
  match search r text with
  | None => Raise (AttributeError "'NoneType' object has no attribute 'group'")
  | Some gs => PyInt.of_str (Py.fmt (group gs 1))
  end.

Definition free_command : string :=
  "free -m | awk '/Mem:/ {printf " ++ Py.dq ++ "%dMiB / %dMiB\n" ++ Py.dq
  ++ ", $3, $2}'".

Definition memory_current : M string :=
  os <- os_check ;;
  if os =? "macOS" then
    out <- subprocess_check_output "sysctl -n hw.memsize" ;;
    n <- lift (PyInt.of_str (Py.strip out)) ;;
    let mem_total := (n / 1024 ^ 2)%Z in
    out <- subprocess_check_output "sysctl -n vm.pagesize" ;;
    page_size <- lift (PyInt.of_str (Py.strip out)) ;;
    out <- subprocess_check_output "vm_stat" ;;
    let vm_stat_output := Py.strip out in
    pages_active <- lift (search_int pages_active_re vm_stat_output) ;;
    pages_wired <- lift (search_int pages_wired_re vm_stat_output) ;;
    pages_speculative <- lift (search_int pages_speculative_re vm_stat_output) ;;
    let mem_used :=
      ((pages_active + pages_wired + pages_speculative) * page_size
       / (1024 * 1024))%Z in
    ret (Py.str_of_int mem_used ++ "MiB / " ++ Py.str_of_int mem_total ++ "MiB")
  else
    os <- os_check ;;
    if os =? "Linux" then
      out <- subprocess_check_output free_command ;;
      let linux_mem := Py.strip out in
      ret linux_mem
    else raise (Exception not_supported_message).

(** The pattern of [uptime]:
    [\d{1,2}:\d{2}\s+up\s+(?:(\d+)\s+day(?:s)?,\s+)?(?:(\d+):(\d+))?(?:(\d+)\s+min(?:ute)?s?)?] *)
Definition uptime_re : regex :=
  Rep digit 1 (Some 2) +++ Lit ":" +++ Rep digit 2 (Some 2)
  +++ Rep space 1 None +++ Lit "up" +++ Rep space 1 None
  +++ Opt (Grp 1 (Rep digit 1 None) +++ Rep space 1 None +++ Lit "day"
           +++ Opt (Lit "s") +++ Lit "," +++ Rep space 1 None)
  +++ Opt (Grp 2 (Rep digit 1 None) +++ Lit ":" +++ Grp 3 (Rep digit 1 None))
  +++ Opt (Grp 4 (Rep digit 1 None) +++ Rep space 1 None +++ Lit "min"
           +++ Opt (Lit "ute") +++ Opt (Lit "s")).

Definition uptime_message : string :=
  "[!] Something went wrong, your uptime might be broken. Please make a Github Issue.".

(** [int(g or 0)] for a group [g]. *)
Definition int_or_0 (g : option string) : result Z :=
  if Py.truthy g then PyInt.of_str (Py.fmt g) else Ok 0%Z.

(** The three numbers [uptime] reads in the command's output: [days],
    [hours] and [minutes]. *)
Definition uptime_fields (uptime_command : string) : result (Z * Z * Z) :=
  match search uptime_re uptime_command with
  | None => Raise (Exception uptime_message)
  | Some gs =>
      match int_or_0 (group gs 1) with
      | Raise e => Raise e
      | Ok days =>
          match (if Py.truthy (group gs 2) then int_or_0 (group gs 2)
                 else Ok 0%Z) with
          | Raise e => Raise e
          | Ok hours =>
              match (if Py.truthy (group gs 3) then int_or_0 (group gs 3)
                     else int_or_0 (group gs 4)) with
              | Raise e => Raise e
              | Ok minutes => Ok (days, hours, minutes)
              end
          end
      end
  end.

(** The function [p] local to [uptime]. *)
Definition p (val : Z) (unit : string) : string :=
  Py.str_of_int val ++ " " ++ unit ++ (if (val =? 1)%Z then "" else "s").

Definition uptime_format (days hours minutes : Z) : string :=
  p days "Day" ++ ", " ++ p hours "Hour" ++ ", " ++ p minutes "Minute".

(** The body of [uptime] from the output of the command on. *)
Definition uptime_of (uptime_command : string) : result string :=
  match uptime_fields uptime_command with
  | Raise e => Raise e
  | Ok (days, hours, minutes) => Ok (uptime_format days hours minutes)
  end.

Definition uptime : M string :=
  os <- os_check ;;
  if in_list os ["macOS"; "Linux"] then
    uptime_command <- subprocess_check_output "uptime" ;;
    lift (uptime_of uptime_command)
  else raise (Exception not_supported_message).

Definition df_command : string :=
  "df -h / | awk 'NR==2 {print $3 " ++ Py.dq ++ " / " ++ Py.dq ++ " $2}'".

Definition disk_usage : M string :=
  os <- os_check ;;
  if in_list os ["Linux"; "macOS"] then
    out <- subprocess_check_output df_command ;;
    let usage := Py.strip out in
    ret usage
  else ret "N/A".

(** The glyphs of the source, as their UTF-8 bytes. *)
Definition full_block : string := bytes [226; 150; 136].
Definition right_half_block : string := bytes [226; 150; 144].
Definition glyph_apple : string := bytes [239; 163; 191].
Definition glyph_linux : string := bytes [239; 140; 154].
Definition glyph_arch : string := bytes [238; 176; 153].
Definition glyph_packages : string := bytes [238; 172; 169].
Definition glyph_shell : string := bytes [238; 152; 148].
Definition glyph_term : string := bytes [239; 146; 137].
Definition glyph_memory : string := bytes [238; 191; 133].
Definition glyph_disk : string := bytes [239; 130; 160].
Definition glyph_uptime : string := bytes [238; 153; 129].

Definition palette_line (i : Z) : string :=
  fold_left
    (fun line j =>
       let color := (30 + j)%Z in
       let color := if (i =? 1)%Z then (color + 60)%Z else color in
       let block :=
         Py.esc ++ "[" ++ Py.str_of_int color ++ "m" ++ full_block
         ++ Py.esc ++ "[0m" in
       line ++ Py.mul_str block 3)
    (range 8) "".

Definition print_color_palette : list string := map palette_line (range 2).

Definition theme_bar : string :=
  let code := theme_color_code in
  Py.esc ++ "[" ++ Py.fmt code ++ "m" ++ right_half_block ++ Py.esc ++ "[0m".

Definition colored_symbol (symbol : string) : string :=
  let code := theme_color_code in
  Py.esc ++ "[" ++ Py.fmt code ++ "m" ++ symbol ++ Py.esc ++ "[0m".

(** [sysinfo] builds both lists, so each probe runs twice, and returns the
    one [args.sys_info] names. *)
Definition sysinfo : M (list string) :=
  let bar := theme_bar in
  os <- os_check ;;
  let os_symbol :=
    if os =? "macOS" then colored_symbol glyph_apple
    else colored_symbol glyph_linux in
  packages <- package_count ;;
  shell <- shell_ver ;;
  term <- find_term ;;
  memory <- memory_current ;;
  disk <- disk_usage ;;
  up <- uptime ;;
  let sys_info_default :=
    List.app
    [os_symbol ++ "  " ++ bar ++ "  " ++ platform_platform w;
     colored_symbol glyph_arch ++ "  " ++ bar ++ "  " ++ platform_machine w;
     colored_symbol glyph_packages ++ "  " ++ bar ++ "  " ++ packages;
     colored_symbol glyph_shell ++ "  " ++ bar ++ "  " ++ Py.fmt shell;
     colored_symbol glyph_term ++ "  " ++ bar ++ "  " ++ term;
     colored_symbol glyph_memory ++ "  " ++ bar ++ "  " ++ memory;
     colored_symbol glyph_disk ++ "  " ++ bar ++ "  " ++ disk;
     colored_symbol glyph_uptime ++ "  " ++ bar ++ "  " ++ up;
     ""] print_color_palette in
  packages <- package_count ;;
  shell <- shell_ver ;;
  term <- find_term ;;
  memory <- memory_current ;;
  disk <- disk_usage ;;
  up <- uptime ;;
  let sys_info_no_nerd_font :=
    List.app
    ["OS: " ++ platform_platform w;
     "Arch: " ++ platform_machine w;
     "Packages: " ++ packages;
     "Shell: " ++ Py.fmt shell;
     "Term: " ++ term;
     "Memory: " ++ memory;
     "Disk: " ++ disk;
     "Uptime: " ++ up;
     ""] print_color_palette in
  if Py.eq_str (args_sys_info args) "sys_info_default"
  then ret sys_info_default
  else if Py.eq_str (args_sys_info args) "sys_info_no_nerd_font"
  then ret sys_info_no_nerd_font
  else ret sys_info_default.

(** The art line of row [i]: [art_lines[i] if i < len(art_lines) else ""]. *)
Definition art_line (art_lines : list string) (i : nat) : string :=
  if (i <? List.length art_lines)%nat then nth i art_lines "" else "".

(** The padding of row [i], [width - len(line)], which may be negative. *)
Definition padding (width : Z) (line : string) : Z := (width - Py.len line)%Z.

(** The row printed for [stat] at index [i]. *)
Definition final_line (art_lines : list string) (width : Z) (i : nat)
    (stat : string) : string :=
  let line := art_line art_lines i in
  let spacing := Py.mul_str " " (padding width line) in
  let colored_line :=
    Py.esc ++ "[" ++ Py.fmt theme_color_code ++ "m" ++ line ++ Py.esc ++ "[0m" in
  colored_line ++ spacing ++ stat.

(** The loop of [main] over [enumerate(sysinfo())], from index [i] on. *)
Fixpoint main_loop (art_lines : list string) (width : Z) (i : nat)
    (stats : list string) : M unit :=
  match stats with
  | [] => ret tt
  | stat :: rest =>
      print (final_line art_lines width i stat) ;;;
      main_loop art_lines width (S i) rest
  end.

Definition windows_message : string :=
  "[!] Oops! qfetch doesn't support Windows yet.".

(** [width = max(longest_line() + 3, 15)] *)
Definition column_width : M Z :=
  l <- longest_line ;; ret (Z.max (l + 3) 15).

Definition main : M unit :=
  os <- os_check ;;
  (if os =? "Windows" then print windows_message else ret tt) ;;;
  art_lines <- art_splitlines ;;
  width <- column_width ;;
  stats <- sysinfo ;;
  main_loop art_lines width 0 stats.

(** The module run as a script: the globals are set, then [main] runs. *)
Definition script : M unit := load ;;; main.

End Program.

(** The state a process starts in. *)
Definition boot : State :=
  {| rand_art := ""; rng := 0; clock := 0; stdout := [] |}.

(** [c] run [n] times in sequence, with the values it returned. *)
Fixpoint calls {A} (n : nat) (c : M A) : M (list A) :=
  match n with
  | O => ret []
  | S n' => x <- c ;; xs <- calls n' c ;; ret (x :: xs)
  end.

(** ** Sample hosts *)

Module Host.

(** What the commands of a Debian machine print, with [$SHELL] given. *)
Definition outputs (shell : string) (t : nat) (cmd : string) : result string :=
  if cmd =? "uptime"
  then Ok (" 10:15:02 up 2 days,  3:45,  1 user,  load average: 0.08" ++ Py.nl)
  else if cmd =? "echo $SHELL" then Ok (shell ++ Py.nl)
  else if cmd =? "zsh --version" then Ok ("zsh 5.9 (x86_64-debian-linux-gnu)" ++ Py.nl)
  else if cmd =? "bash --version"
  then Ok ("GNU bash, version 5.2.15(1)-release (x86_64-pc-linux-gnu)" ++ Py.nl)
  else if cmd =? "echo $TERM" then Ok ("xterm-256color" ++ Py.nl)
  else if cmd =? "dpkg --get-selections | wc -l" then Ok ("1843" ++ Py.nl)
  else if cmd =? free_command then Ok ("2048MiB / 7952MiB" ++ Py.nl)
  else if cmd =? df_command then Ok ("12G / 98G" ++ Py.nl)
  else Raise (CalledProcessError cmd).

(** A host whose [platform.system()] is [system] and whose [$SHELL] is
    [shell]; the random generator picks [draw] every time. *)
Definition make (system shell : string) (draw : nat) : World :=
  {| platform_system := system;
     platform_release := "6.1.0-18-amd64";
     platform_machine := "x86_64";
     platform_platform := "Linux-6.1.0-18-amd64-x86_64-with-glibc2.36";
     draws := fun _ => draw;
     check_output := outputs shell;
     listdir := fun _ path => Raise (OSError path) |}.

(** [w] with [text] for the output of the [uptime] command. *)
Definition with_uptime (w : World) (text : string) : World :=
  {| platform_system := platform_system w;
     platform_release := platform_release w;
     platform_machine := platform_machine w;
     platform_platform := platform_platform w;
     draws := draws w;
     check_output := fun t cmd =>
       if cmd =? "uptime" then Ok text else check_output w t cmd;
     listdir := listdir w |}.

Definition linux : World := make "Linux" "/usr/bin/zsh" 7.
Definition fish : World := make "Linux" "/usr/bin/fish" 7.
Definition windows : World := make "Windows" "/usr/bin/zsh" 7.
Definition plan9 : World := make "Plan9" "/bin/rc" 7.
Definition bash : World := make "Linux" "/bin/bash" 7.

(** [w] with [release] for [platform.release()]. *)
Definition with_release (w : World) (release : string) : World :=
  {| platform_system := platform_system w;
     platform_release := release;
     platform_machine := platform_machine w;
     platform_platform := platform_platform w;
     draws := draws w;
     check_output := check_output w;
     listdir := listdir w |}.

(** A Linux under WSL, with bash for its shell. *)
Definition wsl : World := with_release bash "5.15.153.1-microsoft-standard-WSL2".

(** What the commands of a Mac print. *)
Definition mac_outputs (t : nat) (cmd : string) : result string :=
  if cmd =? "sysctl -n hw.memsize" then Ok ("17179869184" ++ Py.nl)
  else if cmd =? "sysctl -n vm.pagesize" then Ok ("16384" ++ Py.nl)
  else if cmd =? "vm_stat"
  then Ok ("Mach Virtual Memory Statistics: (page size of 16384 bytes)" ++ Py.nl
           ++ "Pages free:                                3532." ++ Py.nl
           ++ "Pages active:                            139908." ++ Py.nl
           ++ "Pages inactive:                          137305." ++ Py.nl
           ++ "Pages speculative:                         1700." ++ Py.nl
           ++ "Pages throttled:                              0." ++ Py.nl
           ++ "Pages wired down:                         95439." ++ Py.nl)
  else if cmd =? "uptime"
  then Ok ("10:15  up 2 days,  3:45, 2 users, load averages: 1.20 1.31 1.40"
           ++ Py.nl)
  else if cmd =? "zsh --version" then Ok ("zsh 5.9 (arm64-apple-darwin23.0)" ++ Py.nl)
  else if cmd =? df_command then Ok ("12Gi / 460Gi" ++ Py.nl)
  else outputs "/bin/zsh" t cmd.

(** A Mac with zsh and three packages in the Homebrew cellar. *)
Definition mac : World :=
  {| platform_system := "Darwin";
     platform_release := "23.5.0";
     platform_machine := "arm64";
     platform_platform := "macOS-14.5-arm64-arm-64bit";
     draws := fun _ => 3;
     check_output := mac_outputs;
     listdir := fun _ path =>
       if path =? "/opt/homebrew/cellar" then Ok ["git"; "jq"; "wget"]
       else Raise (OSError path) |}.

End Host.

(** ** The error taxonomy of the specification

    The source raises the built-in [Exception] everywhere; the class of an
    error is told by where it is raised, which its message identifies. *)

(** An error of OS detection, or of a probe on an OS it does not support. *)
Definition UnsupportedPlatformError (e : exn) : Prop :=
  e = Exception os_check_message \/ e = Exception not_supported_message.

(** ** The maximum line length, as the specification words it *)

Definition max_line_length (lines : list string) : Z :=
  fold_right Z.max 0%Z (map Py.len lines).

(** The rows [main] prints for the info lines [stats], from index [i] on. *)
Fixpoint rows (args : Args) (art_lines : list string) (width : Z) (i : nat)
    (stats : list string) : list string :=
  match stats with
  | [] => []
  | stat :: rest =>
      final_line args art_lines width i stat
      :: rows args art_lines width (S i) rest
  end.

(** [st] with [out] printed after what it holds. *)
Definition printed (st : State) (out : list string) : State :=
  {| rand_art := rand_art st; rng := rng st; clock := clock st;
     stdout := (stdout st ++ out)%list |}.

(** A computation is steady when it draws nothing and leaves [rand_art]
    as it is; it may print. *)
Definition steady {A} (c : M A) : Prop :=
  forall st,
    rand_art (snd (c st)) = rand_art st /\ rng (snd (c st)) = rng st.

(** The state [load] leaves. *)
Definition loaded (w : World) (st : State) : State := snd (load w st).

(** The state after one call to the host. *)
Definition ticked (st : State) : State := snd (tick st).

(** A computation is quiet when it prints nothing, draws nothing and
    leaves [rand_art] as it is: it changes at most the clock. *)
Definition quiet {A} (c : M A) : Prop :=
  forall st,
    rand_art (snd (c st)) = rand_art st
    /\ rng (snd (c st)) = rng st
    /\ stdout (snd (c st)) = stdout st.

(** ** Numerals and the groups of a pattern *)






(** * Properties *)

(** ** The monad *)

Lemma bind_ok {A B} (c : M A) (k : A -> M B) (st st' : State) (b : B) :
  bind c k st = (Ok b, st') ->
  exists a st1, c st = (Ok a, st1) /\ k a st1 = (Ok b, st').
Proof.
  unfold bind. destruct (c st) as [[a | e] st1]; intro H.
  - exists a, st1. split; [reflexivity | exact H].
  - discriminate H.
Qed.

Lemma bind_step {A B} (c : M A) (k : A -> M B) (st st1 : State) (a : A) :
  c st = (Ok a, st1) -> bind c k st = k a st1.
Proof. intro H. unfold bind. rewrite H. reflexivity. Qed.

Lemma bind_raise {A B} (c : M A) (k : A -> M B) (st st1 : State) (e : exn) :
  c st = (Raise e, st1) -> bind c k st = (Raise e, st1).
Proof. intro H. unfold bind. rewrite H. reflexivity. Qed.

(** ** Theme resolution *)

(** C9: each of the seven theme names resolves to its fixed code; an unset
    theme resolves as [default] does, and [magenta] and [default] resolve to
    the same code, 95. *)
Theorem theme_resolution (a : option ArtChoice) (s : option InfoStyle) :
  let code t := theme_color_code (parse_args a s t) in
  code (Some Default) = Some "95"
  /\ code (Some Red) = Some "91"
  /\ code (Some Green) = Some "92"
  /\ code (Some Yellow) = Some "93"
  /\ code (Some Blue) = Some "94"
  /\ code (Some Magenta) = Some "95"
  /\ code (Some Cyan) = Some "96"
  /\ code None = code (Some Default)
  /\ code (Some Magenta) = code (Some Default).
Proof. cbv zeta. repeat split; reflexivity. Qed.

(** ** Pluralization and the uptime parser *)

(** C4: [p] renders the count and the unit, with a trailing [s] unless the
    count is 1; the uptime string applies it to the days, the hours and the
    minutes. *)
Theorem pluralization (n : Z) (unit : string) :
  (0 <= n)%Z ->
  (n = 1%Z -> p n unit = Py.str_of_int n ++ " " ++ unit)
  /\ (n <> 1%Z -> p n unit = Py.str_of_int n ++ " " ++ unit ++ "s")
  /\ p 1 "Day" = "1 Day"
  /\ p 0 "Day" = "0 Days"
  /\ p 5 "Minute" = "5 Minutes"
  /\ (forall days hours minutes,
        uptime_format days hours minutes
        = p days "Day" ++ ", " ++ p hours "Hour" ++ ", " ++ p minutes "Minute").
Proof.
  intros _. unfold p. repeat split.
  - intros ->. cbn [Z.eqb Pos.eqb]. f_equal. f_equal.
    induction unit as [| c u IH]; [reflexivity | cbn; now rewrite IH].
  - intros Hn. apply Z.eqb_neq in Hn. rewrite Hn. reflexivity.
Qed.

Lemma pluralization_witness :
  (0 <= 5)%Z
  /\ p 5 "Minute" = Py.str_of_int 5 ++ " " ++ "Minute" ++ "s"
  /\ p 1 "Hour" = Py.str_of_int 1 ++ " " ++ "Hour".
Proof.
  split; [lia |].
  split.
  - apply (proj1 (proj2 (pluralization 5 "Minute" ltac:(lia)))). discriminate.
  - apply (proj1 (pluralization 1 "Hour" ltac:(lia))). reflexivity.
Defined.

(** C3: the two uptime strings of the specification, through the pattern,
    the defaults of the groups that took no part, and the formatting; and
    [uptime] itself on a host whose command prints them. *)
Theorem uptime_examples :
  uptime_fields "10:15 up 2 days, 3:45" = Ok (2, 3, 45)%Z
  /\ uptime_of "10:15 up 2 days, 3:45" = Ok "2 Days, 3 Hours, 45 Minutes"
  /\ uptime_fields "10:15 up 5 mins" = Ok (0, 0, 5)%Z
  /\ uptime_of "10:15 up 5 mins" = Ok "0 Days, 0 Hours, 5 Minutes"
  /\ uptime (Host.with_uptime Host.linux "10:15 up 2 days, 3:45") boot
     = (Ok "2 Days, 3 Hours, 45 Minutes", ticked boot)
  /\ uptime (Host.with_uptime Host.linux "10:15 up 5 mins") boot
     = (Ok "0 Days, 0 Hours, 5 Minutes", ticked boot)
  /\ (exists gs,
        Re.search uptime_re "10:15 up 5 mins" = Some gs
        /\ Re.group gs 1 = None /\ Re.group gs 2 = None
        /\ Re.group gs 3 = None /\ Re.group gs 4 = Some "5").
Proof.
  repeat split; try (vm_compute; reflexivity).
  eexists. split; [vm_compute; reflexivity |].
  repeat split; reflexivity.
Qed.

(** ** OS detection *)

Lemma in_list_cons (x y : string) (l : list string) :
  in_list x (y :: l) = (String.eqb x y || in_list x l)%bool.
Proof. reflexivity. Qed.

Lemma os_check_state (w : World) (st : State) : snd (os_check w st) = st.
Proof.
  unfold os_check.
  destruct (platform_system w =? "Darwin"); [reflexivity |].
  destruct (platform_system w =? "Windows"); [reflexivity |].
  destruct (platform_system w =? "Linux"); reflexivity.
Qed.

Lemma os_check_darwin (w : World) :
  platform_system w = "Darwin" -> os_check w = ret "macOS".
Proof. intro H. unfold os_check. rewrite H. reflexivity. Qed.

Lemma os_check_windows (w : World) :
  platform_system w = "Windows" -> os_check w = ret "Windows".
Proof. intro H. unfold os_check. rewrite H. reflexivity. Qed.

Lemma os_check_linux (w : World) :
  platform_system w = "Linux" -> os_check w = ret "Linux".
Proof. intro H. unfold os_check. rewrite H. reflexivity. Qed.

Lemma os_check_unsupported (w : World) :
  in_list (platform_system w) ["Darwin"; "Windows"; "Linux"] = false ->
  os_check w = raise (Exception os_check_message).
Proof.
  rewrite !in_list_cons. intro H.
  apply orb_false_elim in H as [H1 H]. apply orb_false_elim in H as [H2 H].
  apply orb_false_elim in H as [H3 _].
  unfold os_check. rewrite H1, H2, H3. reflexivity.
Qed.

(** The four outcomes of [os_check]. *)
Lemma os_check_cases (w : World) :
  (platform_system w = "Darwin" /\ os_check w = ret "macOS")
  \/ (platform_system w = "Windows" /\ os_check w = ret "Windows")
  \/ (platform_system w = "Linux" /\ os_check w = ret "Linux")
  \/ (in_list (platform_system w) ["Darwin"; "Windows"; "Linux"] = false
      /\ os_check w = raise (Exception os_check_message)).
Proof.
  destruct (String.eqb_spec (platform_system w) "Darwin") as [H1 | H1].
  { left. split; [exact H1 | now apply os_check_darwin]. }
  destruct (String.eqb_spec (platform_system w) "Windows") as [H2 | H2].
  { right; left. split; [exact H2 | now apply os_check_windows]. }
  destruct (String.eqb_spec (platform_system w) "Linux") as [H3 | H3].
  { right; right; left. split; [exact H3 | now apply os_check_linux]. }
  right; right; right.
  assert (H : in_list (platform_system w) ["Darwin"; "Windows"; "Linux"] = false).
  { rewrite !in_list_cons.
    apply String.eqb_neq in H1, H2, H3. rewrite H1, H2, H3. reflexivity. }
  split; [exact H | now apply os_check_unsupported].
Qed.

Lemma load_stdout (w : World) (st : State) :
  stdout (loaded w st) = stdout st.
Proof. reflexivity. Qed.

Lemma load_ok (w : World) (st : State) : load w st = (Ok tt, loaded w st).
Proof. reflexivity. Qed.

(** C6: on a system that is none of Darwin, Windows and Linux, detection
    raises, and so do [main] and the whole script, before anything is
    printed; on Windows detection returns [Windows]. *)
Theorem unsupported_os_fails (w : World) (args : Args) (st : State) :
  in_list (platform_system w) ["Darwin"; "Windows"; "Linux"] = false ->
  UnsupportedPlatformError (Exception os_check_message)
  /\ os_check w st = (Raise (Exception os_check_message), st)
  /\ main w args st = (Raise (Exception os_check_message), st)
  /\ script w args st = (Raise (Exception os_check_message), loaded w st)
  /\ stdout (loaded w st) = stdout st
  /\ (forall w' st', platform_system w' = "Windows" ->
        os_check w' st' = (Ok "Windows", st')).
Proof.
  intro H. apply os_check_unsupported in H.
  split; [left; reflexivity |].
  split; [rewrite H; reflexivity |].
  split; [unfold main; rewrite H; reflexivity |].
  split; [unfold script, main, bind; rewrite load_ok, H; reflexivity |].
  split; [apply load_stdout |].
  intros w' st' Hw. rewrite (os_check_windows w' Hw). reflexivity.
Qed.

Lemma unsupported_os_fails_witness :
  main Host.plan9 (parse_args None None None) boot
  = (Raise (Exception os_check_message), boot)
  /\ stdout (snd (script Host.plan9 (parse_args None None None) boot)) = []
  /\ os_check Host.windows boot = (Ok "Windows", boot).
Proof.
  pose proof (unsupported_os_fails Host.plan9 (parse_args None None None) boot
                eq_refl) as (_ & _ & Hmain & Hscript & Hout & Hwin).
  split; [exact Hmain |].
  split; [rewrite Hscript; exact Hout |].
  apply Hwin. reflexivity.
Defined.

(** ** Probes on an OS they do not support *)

Ltac run_os H := unfold bind; rewrite ?H; cbn.

(** An OS that detection returns and that is neither macOS nor Linux is
    Windows. *)
Lemma detected_other (w : World) (st : State) (os : string) :
  os_check w st = (Ok os, st) ->
  in_list os ["macOS"; "Linux"] = false ->
  os_check w = ret "Windows".
Proof.
  intros Hos Hin.
  destruct (os_check_cases w) as [[_ H] | [[_ H] | [[_ H] | [_ H]]]];
    rewrite H in Hos; try exact H.
  - injection Hos as <-. discriminate Hin.
  - injection Hos as <-. discriminate Hin.
  - discriminate Hos.
Qed.

Lemma disk_usage_detection_error (w : World) (st : State) (e : exn) :
  os_check w st = (Raise e, st) -> disk_usage w st = (Raise e, st).
Proof. intro H. unfold disk_usage. now apply bind_raise. Qed.

(** C7, as amended: on an OS that detection returns and that is neither
    macOS nor Linux, [disk_usage] returns the sentinel while every other
    probe raises; when detection itself raises, [disk_usage] raises the same
    error. *)
Theorem disk_usage_sentinel (w : World) (st : State) :
  (forall e, os_check w st = (Raise e, st) -> disk_usage w st = (Raise e, st))
  /\ (forall os,
        os_check w st = (Ok os, st) ->
        in_list os ["macOS"; "Linux"] = false ->
        disk_usage w st = (Ok "N/A", st)
        /\ package_count w st = (Raise (UnboundLocalError "final_count"), st)
        /\ shell_ver w st = (Raise (Exception not_supported_message), st)
        /\ find_term w st = (Raise (Exception not_supported_message), st)
        /\ memory_current w st = (Raise (Exception not_supported_message), st)
        /\ uptime w st = (Raise (Exception not_supported_message), st)).
Proof.
  split; [apply disk_usage_detection_error |].
  intros os Hos Hin. pose proof (detected_other w st os Hos Hin) as H.
  unfold disk_usage, package_count, shell_ver, find_term, memory_current, uptime.
  run_os H. repeat split; reflexivity.
Qed.

Lemma disk_usage_sentinel_witness :
  disk_usage Host.windows boot = (Ok "N/A", boot)
  /\ uptime Host.windows boot = (Raise (Exception not_supported_message), boot).
Proof.
  pose proof (proj2 (disk_usage_sentinel Host.windows boot) "Windows"
                eq_refl eq_refl) as (Hdisk & _ & _ & _ & _ & Hup).
  split; [exact Hdisk | exact Hup].
Defined.

(** C7, as stated, fails on a system detection does not know: there
    [disk_usage] raises the error of [os_check]. *)
Lemma disk_usage_raises_on_plan9 :
  in_list (platform_system Host.plan9) ["Darwin"; "Linux"] = false
  /\ disk_usage Host.plan9 boot = (Raise (Exception os_check_message), boot)
  /\ fst (disk_usage Host.plan9 boot) <> Ok "N/A".
Proof.
  split; [reflexivity |].
  split; [reflexivity |].
  discriminate.
Qed.

(** ** The shell version *)

Lemma supported_os (w : World) :
  in_list (platform_system w) ["Darwin"; "Linux"] = true ->
  exists os, os_check w = ret os /\ in_list os ["macOS"; "Linux"] = true.
Proof.
  rewrite !in_list_cons. intro H.
  apply orb_true_iff in H as [H | H].
  - apply String.eqb_eq in H. exists "macOS".
    split; [now apply os_check_darwin | reflexivity].
  - apply orb_true_iff in H as [H | H]; [| discriminate H].
    apply String.eqb_eq in H. exists "Linux".
    split; [now apply os_check_linux | reflexivity].
Qed.

(** C8 fails on the code: on macOS or Linux, with a shell that is neither
    zsh nor bash, [shell_ver] raises nothing; it returns [None]. *)
Theorem shell_ver_other_shell (w : World) (st : State) (out : string) :
  in_list (platform_system w) ["Darwin"; "Linux"] = true ->
  check_output w (clock st) "echo $SHELL" = Ok out ->
  Py.contains "zsh" (Py.strip out) = false ->
  Py.contains "bash" (Py.strip out) = false ->
  shell_ver w st = (Ok None, ticked st).
Proof.
  intros Hos Hout Hzsh Hbash.
  destruct (supported_os w Hos) as (os & Hcheck & Hin).
  unfold shell_ver, subprocess_check_output, bind.
  rewrite Hcheck. cbn [ret]. rewrite Hin.
  cbn [tick lift]. rewrite Hout, Hzsh, Hbash. reflexivity.
Qed.

Lemma shell_ver_other_shell_witness :
  shell_ver Host.fish boot = (Ok None, ticked boot).
Proof.
  apply (shell_ver_other_shell Host.fish boot ("/usr/bin/fish" ++ Py.nl));
    reflexivity.
Defined.

(** On that host the panel shows the text [None] for the shell. *)
Example fish_panel :
  let args := parse_args None (Some Sys_info_no_nerd_font) None in
  exists st rows,
    script Host.fish args boot = (Ok tt, st)
    /\ stdout st = rows
    /\ List.length rows = 11
    /\ Py.contains "   Shell: None" (nth 3 rows "") = true.
Proof.
  cbv zeta. eexists. eexists.
  split; [vm_compute; reflexivity |].
  split; [reflexivity |].
  split; reflexivity.
Qed.

(** ** The art selection *)

Lemma rand_art_loaded (w : World) (st : State) :
  In (rand_art (loaded w st)) art.
Proof.
  change (rand_art (loaded w st))
    with (nth (draws w (rng st) mod 5) art "").
  apply nth_In. change (List.length art) with 5.
  apply Nat.mod_upper_bound. discriminate.
Qed.

Lemma rng_loaded (w : World) (st : State) : rng (loaded w st) = S (rng st).
Proof. reflexivity. Qed.

(** Every selection the command line accepts yields a block of the
    catalog, once [rand_art] holds one. *)
Lemma ascii_art_catalog (a : option ArtChoice) (s : option InfoStyle)
    (t : option ThemeName) (st : State) :
  In (rand_art st) art ->
  exists text,
    In text art /\ ascii_art (parse_args a s t) st = (Ok (Some text), st).
Proof.
  intro Hrand.
  destruct a as [[] |]; eexists; (split; [| reflexivity]);
    try exact Hrand; cbn; auto 6.
Qed.

Lemma ascii_art_random (s : option InfoStyle) (t : option ThemeName)
    (st : State) :
  ascii_art (parse_args (Some Random_Art) s t) st
  = (Ok (Some (rand_art st)), st).
Proof. reflexivity. Qed.

(** Every block of the catalog can be selected. *)
Lemma catalog_selectable (s : option InfoStyle) (t : option ThemeName)
    (st : State) (text : string) :
  In text art ->
  exists c, ascii_art (parse_args (Some c) s t) st = (Ok (Some text), st).
Proof.
  intros [<- | [<- | [<- | [<- | [<- | []]]]]].
  - exists Playboy_Bunny. reflexivity.
  - exists Tux. reflexivity.
  - exists Phoenix. reflexivity.
  - exists Robot. reflexivity.
  - exists Cat. reflexivity.
Qed.

(** The probes, the selection and [main] draw nothing and leave [rand_art]
    as [load] set it. *)

Lemma quiet_ret {A} (a : A) : quiet (ret a).
Proof. intro st. repeat split. Qed.

Lemma quiet_raise {A} (e : exn) : quiet (@raise A e).
Proof. intro st. repeat split. Qed.

Lemma quiet_lift {A} (r : result A) : quiet (lift r).
Proof. intro st. repeat split. Qed.

Lemma quiet_gets {A} (f : State -> A) : quiet (gets f).
Proof. intro st. repeat split. Qed.

Lemma quiet_tick : quiet tick.
Proof. intro st. repeat split. Qed.

Lemma quiet_bind {A B} (c : M A) (k : A -> M B) :
  quiet c -> (forall a, quiet (k a)) -> quiet (bind c k).
Proof.
  intros Hc Hk st. unfold bind.
  destruct (Hc st) as (H1 & H2 & H3).
  destruct (c st) as [[a | e] st1]; cbn [snd] in *.
  - destruct (Hk a st1) as (K1 & K2 & K3).
    rewrite K1, K2, K3. auto.
  - auto.
Qed.

Ltac quiet_step :=
  first
    [ apply quiet_ret | apply quiet_raise | apply quiet_lift
    | apply quiet_gets | apply quiet_tick
    | apply quiet_bind; [| intro]
    | progress cbv zeta
    | match goal with
      | |- quiet (if ?b then _ else _) => destruct b
      | |- quiet (match ?o with Some _ => _ | None => _ end) => destruct o
      end ].

Lemma quiet_os_check (w : World) : quiet (os_check w).
Proof. unfold os_check. repeat quiet_step. Qed.

Lemma quiet_subprocess (w : World) (cmd : string) :
  quiet (subprocess_check_output w cmd).
Proof. unfold subprocess_check_output. repeat quiet_step. Qed.

Lemma quiet_listdir (w : World) (path : string) : quiet (os_listdir w path).
Proof. unfold os_listdir. repeat quiet_step. Qed.

Ltac quiet_probe :=
  repeat first
    [ apply quiet_os_check | apply quiet_subprocess | apply quiet_listdir
    | quiet_step ].

Lemma quiet_package_count (w : World) : quiet (package_count w).
Proof. unfold package_count. quiet_probe. Qed.

Lemma quiet_shell_ver (w : World) : quiet (shell_ver w).
Proof. unfold shell_ver. quiet_probe. Qed.

Lemma quiet_find_term (w : World) : quiet (find_term w).
Proof. unfold find_term. quiet_probe. Qed.

Lemma quiet_memory_current (w : World) : quiet (memory_current w).
Proof. unfold memory_current. quiet_probe. Qed.

Lemma quiet_uptime (w : World) : quiet (uptime w).
Proof. unfold uptime. quiet_probe. Qed.

Lemma quiet_disk_usage (w : World) : quiet (disk_usage w).
Proof. unfold disk_usage. quiet_probe. Qed.

Lemma quiet_sysinfo (w : World) (args : Args) : quiet (sysinfo w args).
Proof.
  unfold sysinfo.
  repeat first
    [ apply quiet_os_check | apply quiet_package_count | apply quiet_shell_ver
    | apply quiet_find_term | apply quiet_memory_current
    | apply quiet_disk_usage | apply quiet_uptime
    | quiet_step ].
Qed.

Lemma quiet_ascii_art (args : Args) : quiet (ascii_art args).
Proof. unfold ascii_art. repeat quiet_step. Qed.

Lemma quiet_art_splitlines (args : Args) : quiet (art_splitlines args).
Proof.
  unfold art_splitlines. repeat first [apply quiet_ascii_art | quiet_step].
Qed.

Lemma quiet_column_width (args : Args) : quiet (column_width args).
Proof.
  unfold column_width, longest_line.
  repeat first [apply quiet_art_splitlines | quiet_step].
Qed.

Lemma quiet_steady {A} (c : M A) : quiet c -> steady c.
Proof. intros H st. destruct (H st) as (H1 & H2 & _). auto. Qed.

Lemma steady_print (line : string) : steady (print line).
Proof. intro st. split; reflexivity. Qed.

Lemma steady_bind {A B} (c : M A) (k : A -> M B) :
  steady c -> (forall a, steady (k a)) -> steady (bind c k).
Proof.
  intros Hc Hk st. unfold bind.
  destruct (Hc st) as (H1 & H2).
  destruct (c st) as [[a | e] st1]; cbn [snd] in *.
  - destruct (Hk a st1) as (K1 & K2). rewrite K1, K2. auto.
  - auto.
Qed.

Lemma steady_main_loop (args : Args) (art_lines : list string) (width : Z)
    (stats : list string) :
  forall i, steady (main_loop args art_lines width i stats).
Proof.
  induction stats as [| stat rest IH]; intro i; cbn [main_loop].
  - apply quiet_steady, quiet_ret.
  - apply steady_bind; [apply steady_print | intros _; apply IH].
Qed.

Lemma steady_main (w : World) (args : Args) : steady (main w args).
Proof.
  unfold main.
  apply steady_bind; [apply quiet_steady, quiet_os_check | intro os].
  apply steady_bind.
  { destruct (os =? "Windows");
      [apply steady_print | apply quiet_steady, quiet_ret]. }
  intros _.
  apply steady_bind; [apply quiet_steady, quiet_art_splitlines | intro lines].
  apply steady_bind; [apply quiet_steady, quiet_column_width | intro width].
  apply steady_bind; [apply quiet_steady, quiet_sysinfo | intro stats].
  apply steady_main_loop.
Qed.

(** C5: after the one draw made when the module is loaded, any number of
    selections of Random-Art return the same block, a block of the catalog,
    and draw nothing more; a selection made after [main] has run returns
    that block too. *)
Theorem random_art_stable (w : World) (s : option InfoStyle)
    (t : option ThemeName) (st0 : State) (n : nat) :
  let args := parse_args (Some Random_Art) s t in
  let st := loaded w st0 in
  let st' := snd (main w args st) in
  In (rand_art st) art
  /\ rng st = S (rng st0)
  /\ calls n (ascii_art args) st = (Ok (repeat (Some (rand_art st)) n), st)
  /\ calls n (ascii_art args) st' = (Ok (repeat (Some (rand_art st)) n), st')
  /\ rng st' = rng st.
Proof.
  cbv zeta. split; [apply rand_art_loaded |]. split; [apply rng_loaded |].
  assert (Hcalls : forall st,
             calls n (ascii_art (parse_args (Some Random_Art) s t)) st
             = (Ok (repeat (Some (rand_art st)) n), st)).
  { intro st. induction n as [| n IH].
    - reflexivity.
    - cbn [calls repeat].
      rewrite (bind_step _ _ _ _ _ (ascii_art_random s t st)).
      rewrite (bind_step _ _ _ _ _ IH). reflexivity. }
  destruct (steady_main w (parse_args (Some Random_Art) s t) (loaded w st0))
    as (Hrand & Hrng).
  split; [apply Hcalls |].
  split; [rewrite Hcalls, Hrand; reflexivity | exact Hrng].
Qed.

(** ** The longest line and the column width *)

Lemma len_nonneg (s : string) : (0 <= Py.len s)%Z.
Proof. unfold Py.len. lia. Qed.

Lemma max_line_length_nonneg (lines : list string) :
  (0 <= max_line_length lines)%Z.
Proof.
  induction lines as [| l ls IH]; cbn; [lia |].
  fold (max_line_length ls). lia.
Qed.

Lemma max_line_length_cons (l : string) (ls : list string) :
  max_line_length (l :: ls) = Z.max (Py.len l) (max_line_length ls).
Proof. reflexivity. Qed.

Lemma max_line_length_ge (lines : list string) (line : string) :
  In line lines -> (Py.len line <= max_line_length lines)%Z.
Proof.
  induction lines as [| l ls IH]; intros Hin; [contradiction |].
  rewrite max_line_length_cons. destruct Hin as [-> | Hin].
  - lia.
  - specialize (IH Hin). lia.
Qed.

(** The loop keeps the larger of what it holds and the lengths it meets. *)
Lemma longest_loop_max (lines : list string) (l0 : Z) :
  (0 <= l0)%Z ->
  longest_loop lines l0 = Z.max l0 (max_line_length lines).
Proof.
  revert l0. induction lines as [| l ls IH]; intros l0 H0.
  - cbn. lia.
  - unfold longest_loop. cbn [fold_left]. fold (longest_loop ls).
    rewrite max_line_length_cons.
    pose proof (len_nonneg l) as Hl.
    destruct (Z.gtb_spec (Py.len l) l0) as [Hgt | Hle]; cbv iota;
      rewrite IH by lia; lia.
Qed.

(** [longest_line] computes the maximum line length of the selected art. *)
Lemma longest_line_spec (args : Args) (st : State) (text first : string)
    (rest : list string) :
  ascii_art args st = (Ok (Some text), st) ->
  Py.splitlines text = first :: rest ->
  art_splitlines args st = (Ok (first :: rest), st)
  /\ longest_line args st = (Ok (max_line_length (first :: rest)), st)
  /\ column_width args st
     = (Ok (Z.max (max_line_length (first :: rest) + 3) 15), st).
Proof.
  intros Hart Hlines.
  assert (Hsplit : art_splitlines args st = (Ok (first :: rest), st)).
  { unfold art_splitlines. rewrite (bind_step _ _ _ _ _ Hart).
    rewrite Hlines. reflexivity. }
  assert (Hlong : longest_line args st
                  = (Ok (max_line_length (first :: rest)), st)).
  { unfold longest_line. rewrite (bind_step _ _ _ _ _ Hsplit).
    cbn [Py.index nth_error of_option lift bind ret].
    rewrite longest_loop_max by apply len_nonneg.
    rewrite max_line_length_cons, Z.max_assoc, Z.max_id. reflexivity. }
  split; [exact Hsplit |]. split; [exact Hlong |].
  unfold column_width. rewrite (bind_step _ _ _ _ _ Hlong). reflexivity.
Qed.

(** Every block of the catalog has at least one line and at most ten. *)
Lemma catalog_lines (text : string) :
  In text art ->
  exists first rest,
    Py.splitlines text = first :: rest /\ (List.length (first :: rest) <= 10)%nat.
Proof.
  intros [<- | [<- | [<- | [<- | [<- | []]]]]];
    eexists; eexists; (split; [vm_compute; reflexivity | cbn; lia]).
Qed.

(** The selected art, its lines and the column width after [load]. *)
Lemma selected_art (w : World) (a : option ArtChoice) (s : option InfoStyle)
    (t : option ThemeName) (st0 : State) :
  let args := parse_args a s t in
  let st := loaded w st0 in
  exists text art_lines,
    In text art
    /\ ascii_art args st = (Ok (Some text), st)
    /\ art_lines = Py.splitlines text
    /\ (1 <= List.length art_lines <= 10)%nat
    /\ art_splitlines args st = (Ok art_lines, st)
    /\ column_width args st
       = (Ok (Z.max (max_line_length art_lines + 3) 15), st).
Proof.
  cbv zeta.
  destruct (ascii_art_catalog a s t (loaded w st0) (rand_art_loaded w st0))
    as (text & Hin & Hart).
  destruct (catalog_lines text Hin) as (first & rest & Hlines & Hlen).
  destruct (longest_line_spec _ _ _ _ _ Hart Hlines) as (Hsplit & _ & Hwidth).
  exists text, (first :: rest).
  repeat split; auto. cbn [List.length]. lia.
Qed.

(** C2: for every selection, and so for every block of the catalog, the
    column width is at least 15, and it is the maximum line length plus 3
    whenever that maximum exceeds 15. *)
Theorem column_width_floor (w : World) (a : option ArtChoice)
    (s : option InfoStyle) (t : option ThemeName) (st0 : State) :
  let args := parse_args a s t in
  let st := loaded w st0 in
  (exists text art_lines width,
      In text art
      /\ ascii_art args st = (Ok (Some text), st)
      /\ art_lines = Py.splitlines text
      /\ column_width args st = (Ok width, st)
      /\ (15 <= width)%Z
      /\ ((15 < max_line_length art_lines)%Z ->
          width = (max_line_length art_lines + 3)%Z))
  /\ (forall text, In text art ->
        exists c,
          ascii_art (parse_args (Some c) s t) st = (Ok (Some text), st)).
Proof.
  cbv zeta. split.
  - destruct (selected_art w a s t st0)
      as (text & art_lines & Hin & Hart & Hlines & _ & _ & Hwidth).
    exists text, art_lines, (Z.max (max_line_length art_lines + 3) 15).
    repeat split; auto; lia.
  - intros text Hin. now apply catalog_selectable.
Qed.

(** The widths of the five blocks. *)
Example catalog_widths :
  map (fun text => Z.max (max_line_length (Py.splitlines text) + 3) 15) art
  = [16; 16; 22; 24; 29]%Z.
Proof. vm_compute. reflexivity. Qed.

(** ** The gutter *)

Lemma repeat_str_length (n : nat) : String.length (Py.repeat_str " " n) = n.
Proof. induction n as [| n IH]; cbn; [reflexivity | now rewrite IH]. Qed.

Lemma art_line_in (art_lines : list string) (i : nat) :
  (i < List.length art_lines)%nat -> In (art_line art_lines i) art_lines.
Proof.
  intro Hi. unfold art_line.
  apply Nat.ltb_lt in Hi as Hb. rewrite Hb. now apply nth_In.
Qed.

Lemma art_line_beyond (art_lines : list string) (i : nat) :
  (List.length art_lines <= i)%nat -> art_line art_lines i = "".
Proof.
  intro Hi. unfold art_line.
  apply Nat.ltb_ge in Hi. rewrite Hi. reflexivity.
Qed.

(** Under a width computed from the lines, every line leaves at least 3. *)
Lemma padding_at_least_3 (art_lines : list string) (line : string) :
  In line art_lines ->
  (3 <= padding (Z.max (max_line_length art_lines + 3) 15) line)%Z.
Proof.
  intro Hin. apply max_line_length_ge in Hin. unfold padding. lia.
Qed.

(** C10: for every selection, each row that has an art line pads it with
    [width - len(line)] spaces, and that number is at least 3. *)
Theorem art_gutter (w : World) (a : option ArtChoice) (s : option InfoStyle)
    (t : option ThemeName) (st0 : State) :
  let args := parse_args a s t in
  let st := loaded w st0 in
  exists art_lines width,
    art_splitlines args st = (Ok art_lines, st)
    /\ column_width args st = (Ok width, st)
    /\ forall i stat,
         (i < List.length art_lines)%nat ->
         let line := art_line art_lines i in
         let spacing := Py.repeat_str " " (Z.to_nat (padding width line)) in
         (3 <= padding width line)%Z
         /\ (3 <= String.length spacing)%nat
         /\ final_line args art_lines width i stat
            = (Py.esc ++ "[" ++ Py.fmt (theme_color_code args) ++ "m" ++ line
               ++ Py.esc ++ "[0m") ++ spacing ++ stat.
Proof.
  cbv zeta.
  destruct (selected_art w a s t st0)
    as (text & art_lines & _ & _ & _ & _ & Hsplit & Hwidth).
  exists art_lines, (Z.max (max_line_length art_lines + 3) 15).
  split; [exact Hsplit |]. split; [exact Hwidth |].
  intros i stat Hi.
  pose proof (padding_at_least_3 art_lines _ (art_line_in art_lines i Hi)) as H3.
  split; [exact H3 |]. split; [| reflexivity].
  rewrite repeat_str_length. lia.
Qed.

Lemma art_gutter_witness :
  exists art_lines width,
    art_splitlines (parse_args (Some Cat) None None) (loaded Host.linux boot)
    = (Ok art_lines, loaded Host.linux boot)
    /\ column_width (parse_args (Some Cat) None None) (loaded Host.linux boot)
       = (Ok width, loaded Host.linux boot)
    /\ (3 <= padding width (art_line art_lines 5))%Z.
Proof.
  destruct (art_gutter Host.linux (Some Cat) None None boot)
    as (art_lines & width & Hsplit & Hwidth & Hrow).
  exists art_lines, width.
  split; [exact Hsplit |]. split; [exact Hwidth |].
  refine (proj1 (Hrow 5%nat "" _)).
  injection Hsplit as <-. vm_compute. lia.
Defined.

(** ** The rendered rows *)

Ltac bind_inv H :=
  let a := fresh "a" in
  let st := fresh "st" in
  let Ha := fresh "Ha" in
  apply bind_ok in H as (a & st & Ha & H).

(** The info list has the eight facts, an empty line and the two lines of
    the palette. *)
Lemma sysinfo_length (w : World) (args : Args) (st st' : State)
    (info : list string) :
  sysinfo w args st = (Ok info, st') -> List.length info = 11.
Proof.
  intro H. unfold sysinfo in H. cbv zeta in H.
  do 13 bind_inv H.
  destruct (Py.eq_str (args_sys_info args) "sys_info_default");
    [| destruct (Py.eq_str (args_sys_info args) "sys_info_no_nerd_font")];
    injection H as <- _; reflexivity.
Qed.

(** On Windows [sysinfo] stops at the package count. *)
Lemma sysinfo_windows (w : World) (args : Args) (st : State) :
  os_check w = ret "Windows" ->
  sysinfo w args st = (Raise (UnboundLocalError "final_count"), st).
Proof.
  intro H. unfold sysinfo, package_count. run_os H. reflexivity.
Qed.

Lemma sysinfo_unsupported (w : World) (args : Args) (st : State) :
  os_check w = raise (Exception os_check_message) ->
  sysinfo w args st = (Raise (Exception os_check_message), st).
Proof. intro H. unfold sysinfo. run_os H. reflexivity. Qed.

(** When [sysinfo] returns, detection has returned macOS or Linux. *)
Lemma sysinfo_supported (w : World) (args : Args) (st st' : State)
    (info : list string) :
  sysinfo w args st = (Ok info, st') ->
  exists os, os_check w = ret os /\ (os =? "Windows") = false.
Proof.
  intro H.
  destruct (os_check_cases w) as [[_ Hos] | [[_ Hos] | [[_ Hos] | [_ Hos]]]].
  - exists "macOS". split; [exact Hos | reflexivity].
  - rewrite (sysinfo_windows w args st Hos) in H. discriminate H.
  - exists "Linux". split; [exact Hos | reflexivity].
  - rewrite (sysinfo_unsupported w args st Hos) in H. discriminate H.
Qed.

Lemma printed_nil (st : State) : printed st [] = st.
Proof. destruct st. unfold printed. cbn. now rewrite app_nil_r. Qed.

Lemma printed_cons (st : State) (line : string) (out : list string) :
  printed (snd (print line st)) out = printed st (line :: out).
Proof. unfold printed, print. cbn. now rewrite <- app_assoc. Qed.

(** The loop prints one row for each info line, in order. *)
Lemma main_loop_rows (args : Args) (art_lines : list string) (width : Z)
    (stats : list string) :
  forall i st,
    main_loop args art_lines width i stats st
    = (Ok tt, printed st (rows args art_lines width i stats)).
Proof.
  induction stats as [| stat rest IH]; intros i st.
  - cbn. now rewrite printed_nil.
  - cbn [main_loop rows]. unfold bind at 1. cbn [print].
    rewrite IH. now rewrite <- printed_cons.
Qed.

Lemma rows_length (args : Args) (art_lines : list string) (width : Z)
    (stats : list string) :
  forall i, List.length (rows args art_lines width i stats) = List.length stats.
Proof.
  induction stats as [| stat rest IH]; intro i; cbn; [reflexivity |].
  now rewrite IH.
Qed.

Lemma rows_nth (args : Args) (art_lines : list string) (width : Z)
    (stats : list string) :
  forall i k,
    (k < List.length stats)%nat ->
    nth k (rows args art_lines width i stats) ""
    = final_line args art_lines width (i + k) (nth k stats "").
Proof.
  induction stats as [| stat rest IH]; intros i k Hk; [cbn in Hk; lia |].
  destruct k as [| k]; cbn [rows nth].
  - now rewrite Nat.add_0_r.
  - cbn in Hk. rewrite IH by lia. now rewrite Nat.add_succ_r.
Qed.

(** [main] after [load], when [sysinfo] returns [info]. *)
Lemma main_rows (w : World) (args : Args) (st st' : State)
    (art_lines info : list string) (width : Z) :
  art_splitlines args st = (Ok art_lines, st) ->
  column_width args st = (Ok width, st) ->
  sysinfo w args st = (Ok info, st') ->
  main w args st = (Ok tt, printed st' (rows args art_lines width 0 info)).
Proof.
  intros Hsplit Hwidth Hinfo.
  destruct (sysinfo_supported w args st st' info Hinfo) as (os & Hos & Hwin).
  unfold main. rewrite Hos. unfold bind at 1. cbn [ret]. rewrite Hwin.
  unfold bind at 1. cbn [ret].
  rewrite (bind_step _ _ _ _ _ Hsplit), (bind_step _ _ _ _ _ Hwidth),
    (bind_step _ _ _ _ _ Hinfo).
  apply main_loop_rows.
Qed.

(** C1: whenever [sysinfo] returns its list, the script prints one row for
    each info line and nothing else; the list has 11 lines, no art block has
    more, so the rows are as many as the larger of the two counts, and a row
    past the end of the art has the empty string for its art line. *)
Theorem rendered_rows (w : World) (a : option ArtChoice)
    (s : option InfoStyle) (t : option ThemeName) (st0 st' : State)
    (info : list string) :
  let args := parse_args a s t in
  let st := loaded w st0 in
  sysinfo w args st = (Ok info, st') ->
  exists art_lines width out,
    art_splitlines args st = (Ok art_lines, st)
    /\ column_width args st = (Ok width, st)
    /\ script w args st0 = (Ok tt, printed st' out)
    /\ stdout (printed st' out) = (stdout st0 ++ out)%list
    /\ List.length out = Nat.max (List.length art_lines) (List.length info)
    /\ (List.length out <= List.length info)%nat
    /\ List.length info = 11
    /\ forall i,
         (i < List.length out)%nat ->
         nth i out "" = final_line args art_lines width i (nth i info "")
         /\ ((List.length art_lines <= i)%nat -> art_line art_lines i = "").
Proof.
  cbv zeta. intro Hinfo.
  destruct (selected_art w a s t st0)
    as (text & art_lines & _ & _ & _ & Hlen & Hsplit & Hwidth).
  pose proof (sysinfo_length _ _ _ _ _ Hinfo) as H11.
  destruct (quiet_sysinfo w (parse_args a s t) (loaded w st0)) as (_ & _ & Hout).
  rewrite Hinfo in Hout. cbn [snd] in Hout.
  set (width := Z.max (max_line_length art_lines + 3) 15) in *.
  exists art_lines, width, (rows (parse_args a s t) art_lines width 0 info).
  rewrite rows_length.
  split; [exact Hsplit |]. split; [exact Hwidth |].
  split.
  { unfold script. rewrite (bind_step _ _ _ _ _ (load_ok w st0)).
    now apply main_rows. }
  split; [cbn [printed stdout]; now rewrite Hout, load_stdout |].
  split; [lia |]. split; [lia |]. split; [exact H11 |].
  intros i Hi. split.
  - now rewrite rows_nth.
  - apply art_line_beyond.
Qed.

Lemma rendered_rows_witness :
  let args := parse_args (Some Tux) None (Some Green) in
  exists info st' out,
    sysinfo Host.linux args (loaded Host.linux boot) = (Ok info, st')
    /\ script Host.linux args boot = (Ok tt, printed st' out)
    /\ stdout (printed st' out) = out
    /\ List.length out = 11.
Proof.
  cbv zeta.
  set (args := parse_args (Some Tux) None (Some Green)).
  set (r := sysinfo Host.linux args (loaded Host.linux boot)).
  set (info := match fst r with Ok l => l | Raise _ => [] end).
  assert (Hinfo : r = (Ok info, snd r)) by (vm_compute; reflexivity).
  destruct (rendered_rows Host.linux (Some Tux) None (Some Green) boot
              (snd r) info Hinfo)
    as (art_lines & width & out & _ & _ & Hscript & Hout & Hlen & Hle & H11 & _).
  exists info, (snd r), out.
  split; [exact Hinfo |]. split; [exact Hscript |]. split; [exact Hout |].
  lia.
Defined.

(** * Further properties of the program *)

(** ** Whole runs *)

(** The selected art, its lines and the column width in any state whose
    [rand_art] is a block of the catalog. *)
Lemma selected_art_at (a : option ArtChoice) (s : option InfoStyle)
    (t : option ThemeName) (st : State) :
  In (rand_art st) art ->
  exists art_lines,
    (1 <= List.length art_lines <= 10)%nat
    /\ art_splitlines (parse_args a s t) st = (Ok art_lines, st)
    /\ column_width (parse_args a s t) st
       = (Ok (Z.max (max_line_length art_lines + 3) 15), st).
Proof.
  intro Hrand.
  destruct (ascii_art_catalog a s t st Hrand) as (text & Hin & Hart).
  destruct (catalog_lines text Hin) as (first & rest & Hlines & Hlen).
  destruct (longest_line_spec _ _ _ _ _ Hart Hlines) as (Hsplit & _ & Hwidth).
  exists (first :: rest). repeat split; auto. cbn [List.length]. lia.
Qed.

Lemma print_printed (line : string) (st : State) :
  print line st = (Ok tt, printed st [line]).
Proof. reflexivity. Qed.

Lemma main_windows (w : World) (a : option ArtChoice) (s : option InfoStyle)
    (t : option ThemeName) (st : State) :
  os_check w = ret "Windows" ->
  In (rand_art st) art ->
  main w (parse_args a s t) st
  = (Raise (UnboundLocalError "final_count"), printed st [windows_message]).
Proof.
  intros Hos Hrand.
  destruct (selected_art_at a s t (printed st [windows_message]) Hrand)
    as (art_lines & _ & Hsplit & Hwidth).
  unfold main. rewrite Hos. unfold bind at 1. cbn [ret].
  change ("Windows" =? "Windows") with true. cbv iota.
  rewrite (bind_step _ _ _ _ _ (print_printed windows_message st)).
  rewrite (bind_step _ _ _ _ _ Hsplit), (bind_step _ _ _ _ _ Hwidth).
  apply bind_raise. now apply sysinfo_windows.
Qed.


(** X1: on Windows the script prints the notice, and only it, and then ends
    with the [UnboundLocalError] of [package_count]: the panel is never
    printed there. *)
Theorem windows_run (w : World) (a : option ArtChoice) (s : option InfoStyle)
    (t : option ThemeName) (st0 : State) :
  platform_system w = "Windows" ->
  script w (parse_args a s t) st0
  = (Raise (UnboundLocalError "final_count"),
     printed (loaded w st0) [windows_message])
  /\ stdout (printed (loaded w st0) [windows_message])
     = (stdout st0 ++ [windows_message])%list.
Proof.
  intro Hw. split; [| reflexivity].
  unfold script. rewrite (bind_step _ _ _ _ _ (load_ok w st0)).
  apply main_windows; [now apply os_check_windows | apply rand_art_loaded].
Qed.

Lemma windows_run_witness :
  script Host.windows (parse_args (Some Robot) None (Some Cyan)) boot
  = (Raise (UnboundLocalError "final_count"),
     printed (loaded Host.windows boot) [windows_message]).
Proof.
  exact (proj1 (windows_run Host.windows (Some Robot) None (Some Cyan) boot
                  eq_refl)).
Defined.


(** ** Detection and the probes *)

(** X3: on a system detection does not know, every probe, and [sysinfo],
    raise the error of [os_check] itself, and no command is run: the state,
    clock included, is left as it was. *)
Theorem detection_error_everywhere (w : World) (args : Args) (st : State) :
  in_list (platform_system w) ["Darwin"; "Windows"; "Linux"] = false ->
  let failed {A} (c : M A) := c st = (Raise (Exception os_check_message), st) in
  failed (package_count w)
  /\ failed (shell_ver w)
  /\ failed (find_term w)
  /\ failed (memory_current w)
  /\ failed (uptime w)
  /\ failed (disk_usage w)
  /\ failed (sysinfo w args).
Proof.
  intro H. apply os_check_unsupported in H. cbv zeta.
  unfold package_count, shell_ver, find_term, memory_current, uptime,
    disk_usage, sysinfo.
  run_os H. repeat split; reflexivity.
Qed.

Lemma detection_error_everywhere_witness :
  uptime Host.plan9 boot = (Raise (Exception os_check_message), boot)
  /\ sysinfo Host.plan9 (parse_args None None None) boot
     = (Raise (Exception os_check_message), boot).
Proof.
  pose proof (detection_error_everywhere Host.plan9 (parse_args None None None)
                boot eq_refl) as (_ & _ & _ & _ & Hup & _ & Hinfo).
  split; [exact Hup | exact Hinfo].
Defined.

(** X4: [os_check] returns nothing but the three names the probes test
    for, each for one value of [platform.system()], and never touches the
    state. *)
Theorem os_check_range (w : World) (st st' : State) (os : string) :
  os_check w st = (Ok os, st') ->
  st' = st
  /\ ((os = "macOS" /\ platform_system w = "Darwin")
      \/ (os = "Windows" /\ platform_system w = "Windows")
      \/ (os = "Linux" /\ platform_system w = "Linux")).
Proof.
  intro H.
  destruct (os_check_cases w) as [[Hw Hos] | [[Hw Hos] | [[Hw Hos] | [_ Hos]]]];
    rewrite Hos in H; try discriminate H; injection H as <- <-;
    (split; [reflexivity | auto]).
Qed.

Lemma os_check_range_witness :
  boot = boot
  /\ (("Linux" = "macOS" /\ platform_system Host.fish = "Darwin")
      \/ ("Linux" = "Windows" /\ platform_system Host.fish = "Windows")
      \/ ("Linux" = "Linux" /\ platform_system Host.fish = "Linux")).
Proof. exact (os_check_range Host.fish boot boot "Linux" eq_refl). Defined.

(** ** The layout of a row *)

Lemma str_length_app (s1 s2 : string) :
  String.length (s1 ++ s2) = String.length s1 + String.length s2.
Proof. induction s1 as [| c s1 IH]; cbn; [reflexivity | now rewrite IH]. Qed.

Lemma str_app_assoc (s1 s2 s3 : string) : (s1 ++ s2) ++ s3 = s1 ++ s2 ++ s3.
Proof. induction s1 as [| c s1 IH]; cbn; [reflexivity | now rewrite IH]. Qed.

(** The code of every theme the command line accepts has two digits. *)
Lemma theme_code_length (a : option ArtChoice) (s : option InfoStyle)
    (t : option ThemeName) :
  exists code,
    theme_color_code (parse_args a s t) = Some code /\ String.length code = 2.
Proof. destruct t as [[] |]; eexists; split; reflexivity. Qed.

(** X5: for every selection, every row, with an art line or past the end
    of the art, puts the same number of bytes before the info text: the
    column width and the nine bytes of the two colour sequences.  The info
    lines start in one column. *)
Theorem rows_aligned (w : World) (a : option ArtChoice) (s : option InfoStyle)
    (t : option ThemeName) (st0 : State) :
  let args := parse_args a s t in
  let st := loaded w st0 in
  exists art_lines width,
    art_splitlines args st = (Ok art_lines, st)
    /\ column_width args st = (Ok width, st)
    /\ forall i stat,
       exists left,
         final_line args art_lines width i stat = left ++ stat
         /\ String.length left = Z.to_nat width + 9.
Proof.
  cbv zeta.
  destruct (selected_art_at a s t (loaded w st0) (rand_art_loaded w st0))
    as (art_lines & _ & Hsplit & Hwidth).
  set (width := Z.max (max_line_length art_lines + 3) 15) in *.
  exists art_lines, width.
  split; [exact Hsplit |]. split; [exact Hwidth |].
  intros i stat.
  destruct (theme_code_length a s t) as (code & Hcode & Hlen).
  assert (Hpad : (0 <= padding width (art_line art_lines i))%Z).
  { destruct (Nat.lt_ge_cases i (List.length art_lines)) as [Hi | Hi].
    - pose proof (padding_at_least_3 art_lines _ (art_line_in art_lines i Hi)).
      fold width in H. lia.
    - rewrite (art_line_beyond art_lines i Hi). unfold padding, Py.len, width.
      cbn [String.length]. lia. }
  unfold final_line. rewrite Hcode. cbn [Py.fmt].
  eexists. split; [symmetry; apply str_app_assoc |].
  unfold Py.mul_str.
  rewrite !str_length_app, repeat_str_length, Hlen.
  unfold padding, Py.len in *. cbn [String.length Py.esc]. lia.
Qed.

(** ** The info list *)

(** X6: whatever the style and the theme, the list [sysinfo] returns is
    eight fact lines, then an empty line, then the two lines of the palette,
    which depend on nothing. *)
Theorem sysinfo_shape (w : World) (args : Args) (st st' : State)
    (info : list string) :
  sysinfo w args st = (Ok info, st') ->
  exists facts,
    List.length facts = 8
    /\ info = (facts ++ "" :: print_color_palette)%list
    /\ List.length print_color_palette = 2.
Proof.
  intro H. unfold sysinfo in H. cbv zeta in H.
  do 13 bind_inv H.
  destruct (Py.eq_str (args_sys_info args) "sys_info_default");
    [| destruct (Py.eq_str (args_sys_info args) "sys_info_no_nerd_font")];
    injection H as <- _;
    (eexists (_ :: _ :: _ :: _ :: _ :: _ :: _ :: _ :: nil);
     split; [reflexivity | split; reflexivity]).
Qed.

Lemma sysinfo_shape_witness :
  exists facts,
    List.length facts = 8
    /\ fst (sysinfo Host.mac (parse_args None None None) boot)
       = Ok (facts ++ "" :: print_color_palette)%list.
Proof.
  set (r := sysinfo Host.mac (parse_args None None None) boot).
  set (info := match fst r with Ok l => l | Raise _ => [] end).
  assert (Hinfo : r = (Ok info, snd r)) by (vm_compute; reflexivity).
  destruct (sysinfo_shape Host.mac (parse_args None None None) boot (snd r)
              info Hinfo) as (facts & Hlen & Heq & _).
  exists facts. split; [exact Hlen |].
  rewrite Hinfo. cbn [fst]. now rewrite Heq.
Defined.

(** ** The theme *)

Lemma dict_get_none (d : dict) (key : string) :
  dict_get d key = None <-> ~ In key (map fst d).
Proof.
  induction d as [| [k v] d IH]; cbn.
  - tauto.
  - destruct (String.eqb_spec k key) as [-> | Hne].
    + split; [discriminate | intro H; exfalso; apply H; now left].
    + rewrite IH. split; [intros H [Hk | Hin]; [congruence | tauto] | tauto].
Qed.

(** X7: the theme code is missing exactly for a theme name that is not
    empty and is none of the seven keys; an empty name resolves as the
    default does.  With the code missing, the colour sequence of a symbol
    carries the text [None]. *)
Theorem theme_code_missing (args : Args) :
  (theme_color_code args = None
   <-> exists name,
         args_theme args = Some name /\ name <> ""
         /\ ~ In name ["default"; "red"; "green"; "yellow"; "blue"; "magenta";
                       "cyan"])
  /\ (args_theme args = Some "" -> theme_color_code args = Some "95")
  /\ (theme_color_code args = None ->
      forall symbol,
        colored_symbol args symbol
        = Py.esc ++ "[None" ++ "m" ++ symbol ++ Py.esc ++ "[0m").
Proof.
  split; [| split].
  - unfold theme_color_code. rewrite dict_get_none.
    change (map fst colors)
      with ["default"; "red"; "green"; "yellow"; "blue"; "magenta"; "cyan"].
    destruct (args_theme args) as [[| c name] |]; cbn [Py.or_else Py.truthy].
    + split; [intro H; exfalso; apply H; now left |].
      intros (name & H & Hne & _). injection H as <-. now elim Hne.
    + split.
      * intro H. exists (String c name). repeat split; [discriminate | exact H].
      * intros (n & H & _ & Hnot). injection H as <-. exact Hnot.
    + split; [intro H; exfalso; apply H; now left |].
      intros (name & H & _). discriminate H.
  - intro H. unfold theme_color_code. rewrite H. reflexivity.
  - intros H symbol. unfold colored_symbol. cbv zeta. rewrite H. reflexivity.
Qed.

Lemma theme_code_missing_witness :
  theme_color_code
    {| args_art := None; args_sys_info := None; args_theme := Some "purple" |}
  = None
  /\ theme_color_code
       {| args_art := None; args_sys_info := None; args_theme := Some "" |}
     = Some "95".
Proof.
  split.
  - apply (proj1 (theme_code_missing _)). exists "purple".
    split; [reflexivity |]. split; [discriminate |].
    cbn. intros [H | [H | [H | [H | [H | [H | [H | []]]]]]]]; discriminate H.
  - apply (proj1 (proj2 (theme_code_missing _))). reflexivity.
Defined.

(** ** The shell and the packages *)

Lemma ticked_clock (st : State) : clock (ticked st) = S (clock st).
Proof. reflexivity. Qed.

Lemma subprocess_run (w : World) (cmd : string) (st : State) :
  subprocess_check_output w cmd st = (check_output w (clock st) cmd, ticked st).
Proof.
  unfold subprocess_check_output, bind, tick, lift, ticked. reflexivity.
Qed.

(** X8: on macOS or Linux, a shell whose path contains [zsh] is asked for
    its version even when the path contains [bash] too; the result is the
    second word of what [zsh --version] prints, and an [IndexError] when it
    prints fewer than two words.  Two commands are run. *)
Theorem shell_ver_zsh (w : World) (st : State) (out ver : string) :
  in_list (platform_system w) ["Darwin"; "Linux"] = true ->
  check_output w (clock st) "echo $SHELL" = Ok out ->
  Py.contains "zsh" (Py.strip out) = true ->
  check_output w (S (clock st)) "zsh --version" = Ok ver ->
  shell_ver w st
  = (match nth_error (Py.split (Py.strip ver)) 1 with
     | Some word => Ok (Some word)
     | None => Raise IndexError
     end, ticked (ticked st)).
Proof.
  intros Hos Hout Hzsh Hver.
  destruct (supported_os w Hos) as (os & Hcheck & Hin).
  unfold shell_ver. rewrite Hcheck. unfold bind at 1. cbn [ret]. rewrite Hin.
  unfold bind at 1. rewrite subprocess_run, Hout. cbv zeta. rewrite Hzsh.
  unfold bind at 1. rewrite subprocess_run, ticked_clock, Hver.
  unfold Py.index.
  destruct (nth_error (Py.split (Py.strip ver)) 1); reflexivity.
Qed.

Lemma shell_ver_zsh_witness :
  shell_ver Host.mac boot = (Ok (Some "5.9"), ticked (ticked boot)).
Proof.
  apply (shell_ver_zsh Host.mac boot ("/bin/zsh" ++ Py.nl)
           ("zsh 5.9 (arm64-apple-darwin23.0)" ++ Py.nl)); reflexivity.
Defined.

(** X9: under WSL, told by [microsoft] in the kernel release in any case of
    letters, a bash shell is reported as [bash (WSL)] and bash is never
    run: the only command is the one that reads [$SHELL]. *)
Theorem shell_ver_wsl (w : World) (st : State) (out : string) :
  in_list (platform_system w) ["Darwin"; "Linux"] = true ->
  check_output w (clock st) "echo $SHELL" = Ok out ->
  Py.contains "zsh" (Py.strip out) = false ->
  Py.contains "bash" (Py.strip out) = true ->
  Py.contains "microsoft" (Py.lower (platform_release w)) = true ->
  shell_ver w st = (Ok (Some "bash (WSL)"), ticked st).
Proof.
  intros Hos Hout Hzsh Hbash Hwsl.
  destruct (supported_os w Hos) as (os & Hcheck & Hin).
  unfold shell_ver. rewrite Hcheck. unfold bind at 1. cbn [ret]. rewrite Hin.
  unfold bind at 1. rewrite subprocess_run, Hout. cbv zeta.
  rewrite Hzsh, Hbash, Hwsl. reflexivity.
Qed.

Lemma shell_ver_wsl_witness :
  shell_ver Host.wsl boot = (Ok (Some "bash (WSL)"), ticked boot).
Proof.
  apply (shell_ver_wsl Host.wsl boot ("/bin/bash" ++ Py.nl)); reflexivity.
Defined.

(** X10: outside WSL, a bash shell is reported as [bash] and the fourth
    word of what [bash --version] prints, with an [IndexError] when it
    prints fewer than four words. *)
Theorem shell_ver_bash (w : World) (st : State) (out ver : string) :
  in_list (platform_system w) ["Darwin"; "Linux"] = true ->
  check_output w (clock st) "echo $SHELL" = Ok out ->
  Py.contains "zsh" (Py.strip out) = false ->
  Py.contains "bash" (Py.strip out) = true ->
  Py.contains "microsoft" (Py.lower (platform_release w)) = false ->
  check_output w (S (clock st)) "bash --version" = Ok ver ->
  shell_ver w st
  = (match nth_error (Py.split (Py.strip ver)) 3 with
     | Some word => Ok (Some ("bash " ++ word))
     | None => Raise IndexError
     end, ticked (ticked st)).
Proof.
  intros Hos Hout Hzsh Hbash Hwsl Hver.
  destruct (supported_os w Hos) as (os & Hcheck & Hin).
  unfold shell_ver. rewrite Hcheck. unfold bind at 1. cbn [ret]. rewrite Hin.
  unfold bind at 1. rewrite subprocess_run, Hout. cbv zeta.
  rewrite Hzsh, Hbash, Hwsl.
  unfold bind at 1. rewrite subprocess_run, ticked_clock, Hver.
  unfold Py.index.
  destruct (nth_error (Py.split (Py.strip ver)) 3); reflexivity.
Qed.

Lemma shell_ver_bash_witness :
  shell_ver Host.bash boot
  = (Ok (Some "bash 5.2.15(1)-release"), ticked (ticked boot)).
Proof.
  apply (shell_ver_bash Host.bash boot ("/bin/bash" ++ Py.nl)
           ("GNU bash, version 5.2.15(1)-release (x86_64-pc-linux-gnu)"
            ++ Py.nl)); reflexivity.
Defined.

(** X11: when [package_count] returns, the host is a Mac and the result is
    the number of entries of the Homebrew cellar with the mark [(brew)], or
    the host is a Linux and the result is the output of the dpkg pipeline,
    stripped, with the mark [(apt)]; one call is made to the host. *)
Theorem package_count_result (w : World) (st st' : State) (r : string) :
  package_count w st = (Ok r, st') ->
  st' = ticked st
  /\ ((platform_system w = "Darwin"
       /\ exists entries,
            listdir w (clock st) "/opt/homebrew/cellar" = Ok entries
            /\ r = Py.str_of_int (Z.of_nat (List.length entries)) ++ " (brew)")
      \/ (platform_system w = "Linux"
          /\ exists out,
               check_output w (clock st) "dpkg --get-selections | wc -l" = Ok out
               /\ r = Py.strip out ++ " (apt)")).
Proof.
  intro H. unfold package_count in H.
  destruct (os_check_cases w) as [[Hw Hos] | [[Hw Hos] | [[Hw Hos] | [_ Hos]]]];
    rewrite Hos in H; unfold bind at 1 in H; cbn [ret raise] in H;
    try discriminate H.
  - change ("macOS" =? "macOS") with true in H. cbv iota in H.
    unfold os_listdir, bind, tick, lift in H.
    destruct (listdir w (clock st) "/opt/homebrew/cellar") as [entries | e] eqn:E;
      [| discriminate H].
    injection H as <- <-. split; [reflexivity |].
    left. split; [exact Hw |]. exists entries. split; reflexivity.
  - change ("Linux" =? "macOS") with false in H. cbv iota in H.
    unfold bind at 1 in H. cbn [ret] in H.
    change ("Linux" =? "Linux") with true in H. cbv iota in H.
    unfold bind at 1 in H. rewrite subprocess_run in H.
    destruct (check_output w (clock st) "dpkg --get-selections | wc -l")
      as [out | e] eqn:E; [| discriminate H].
    injection H as <- <-. split; [reflexivity |].
    right. split; [exact Hw |]. exists out. split; reflexivity.
Qed.

Lemma package_count_result_witness :
  package_count Host.mac boot = (Ok "3 (brew)", ticked boot)
  /\ platform_system Host.mac = "Darwin".
Proof.
  destruct (package_count_result Host.mac boot (ticked boot) "3 (brew)" eq_refl)
    as (_ & [[Hw _] | [Hw _]]).
  - split; [reflexivity | exact Hw].
  - discriminate Hw.
Defined.

(** ** The uptime parser on any text *)

































(** ** The art selection on any arguments *)

(** X14: with no art named, or the empty name, the selection is the third
    block of the catalog, the one named Phoenix, whatever was drawn; with a
    name that is none of the six keys the selection is [None], and
    [longest_line] then raises an [AttributeError]. *)
Theorem ascii_art_selection (args : Args) (st : State) :
  (args_art args = None \/ args_art args = Some "" ->
   ascii_art args st = (Ok (nth_error art 2), st)
   /\ ascii_art args st
      = ascii_art (parse_args (Some Phoenix) None None) st)
  /\ (forall name,
        args_art args = Some name -> name <> "" ->
        ~ In name ["Playboy-Bunny"; "Tux"; "Phoenix"; "Robot"; "Cat";
                   "Random-Art"] ->
        ascii_art args st = (Ok None, st)
        /\ longest_line args st
           = (Raise (AttributeError
                       "'NoneType' object has no attribute 'splitlines'"), st)).
Proof.
  split.
  - intros [H | H]; unfold ascii_art; rewrite H; split; reflexivity.
  - intros name H Hne Hnot.
    assert (Hget : dict_get (art_dict (rand_art st)) name = None).
    { apply dict_get_none. exact Hnot. }
    assert (Hart : ascii_art args st = (Ok None, st)).
    { unfold ascii_art. rewrite H. destruct name as [| c name]; [now elim Hne |].
      cbn [Py.truthy]. unfold bind, gets, ret. now rewrite Hget. }
    split; [exact Hart |].
    unfold longest_line. apply bind_raise.
    unfold art_splitlines. rewrite (bind_step _ _ _ _ _ Hart). reflexivity.
Qed.

Lemma ascii_art_selection_witness :
  ascii_art {| args_art := Some "Dog"; args_sys_info := None;
               args_theme := None |} boot
  = (Ok None, boot).
Proof.
  refine (proj1 (proj2 (ascii_art_selection
                          {| args_art := Some "Dog"; args_sys_info := None;
                             args_theme := None |} boot)
                   "Dog" eq_refl _ _)).
  - discriminate.
  - cbn. intros [H | [H | [H | [H | [H | [H | []]]]]]]; discriminate H.
Defined.

(** ** The loop on any art *)

Lemma prefix_app (l b : string) : prefix l (l ++ b) = true.
Proof.
  induction l as [| x l IH]; cbn; [now destruct b |].
  destruct (ascii_dec x x) as [_ | Hne]; [exact IH | now elim Hne].
Qed.

Lemma contains_prefix (sub s : string) :
  prefix sub s = true -> Py.contains sub s = true.
Proof. intro H. destruct s; cbn [Py.contains]; now rewrite H. Qed.

Lemma contains_app (line a b : string) :
  Py.contains line (a ++ line ++ b) = true.
Proof.
  induction a as [| c a IH]; cbn [append].
  - apply contains_prefix, prefix_app.
  - cbn [Py.contains]. rewrite IH.
    now destruct (prefix line (String c (a ++ line ++ b))).
Qed.

(** X15: on any art lines, width and info lines, the loop of [main] prints
    one row for each info line and ends normally; each row holds its art
    line and ends with its info line, and art lines past the end of the
    info list are not printed. *)
Theorem main_loop_one_row_per_stat (args : Args) (art_lines stats : list string)
    (width : Z) (st : State) :
  exists out,
    main_loop args art_lines width 0 stats st = (Ok tt, printed st out)
    /\ List.length out = List.length stats
    /\ forall i,
         (i < List.length stats)%nat ->
         exists left,
           nth i out "" = left ++ nth i stats ""
           /\ Py.contains (art_line art_lines i) left = true.
Proof.
  exists (rows args art_lines width 0 stats).
  split; [apply main_loop_rows |]. split; [apply rows_length |].
  intros i Hi. rewrite rows_nth by exact Hi. cbn [Nat.add].
  unfold final_line. cbv zeta.
  set (line := art_line art_lines i).
  set (sp := Py.mul_str " " (padding width line)).
  set (code := Py.fmt (theme_color_code args)).
  exists ((Py.esc ++ "[" ++ code ++ "m") ++ line ++ (Py.esc ++ "[0m") ++ sp).
  split.
  - now rewrite !str_app_assoc.
  - apply contains_app.
Qed.

Lemma main_loop_one_row_per_stat_witness :
  exists out,
    main_loop (parse_args None None None) ["/\"; "\/"; "--"] 5 0 ["a"; "b"] boot
    = (Ok tt, printed boot out)
    /\ List.length out = 2.
Proof.
  destruct (main_loop_one_row_per_stat (parse_args None None None)
              ["/\"; "\/"; "--"] ["a"; "b"] 5 boot) as (out & Hrun & Hlen & _).
  exists out. split; [exact Hrun | exact Hlen].
Defined.

(** ** What the probes never do *)

(** X16: [sysinfo], and so every probe it runs, prints nothing, makes no
    random draw and leaves [rand_art] alone, whether it returns or raises:
    only [main] prints. *)
Theorem sysinfo_prints_nothing (w : World) (args : Args) (st : State) :
  let st' := snd (sysinfo w args st) in
  stdout st' = stdout st /\ rng st' = rng st /\ rand_art st' = rand_art st.
Proof.
  cbv zeta. destruct (quiet_sysinfo w args st) as (H1 & H2 & H3). auto.
Qed.
